(** * stubby: a shallow embedding of [stubby.py]

    The development models the two classes of [stubby.py]
    ([ModuleStubGenerator], the per-module renderer, and [StubGenerator],
    the package walker) as programs in a small state-and-exception monad
    over a file system, and proves the properties of the natural-language
    specification against them.

    Modelling conventions.
    - Python [str] values are [string]; the string methods the script calls
      ([startswith], [removeprefix], [split]) and the [os.path] helpers
      ([join], [dirname]) are written out on strings (POSIX flavour).
    - The file system is a finite map from resolved paths to nodes.  Paths are
      resolved lexically (as [os.path.normpath] does); symbolic links,
      permissions and text-mode newline translation are not modelled.
    - Live Python objects are records of the observations the script makes
      of them; module objects live in a heap and are referred to by location,
      so that a generator and its caller share the module it was built from.
    - Importing is a lookup in the interpreter environment; the import-time
      side effects of the inspected package are not modelled, and module
      discovery does not depend on the stub output tree. *)

From Stdlib Require Import String Ascii List Bool Arith Lia.
From stdpp Require Import base strings list gmap sorting.

#[local] Set Warnings "-clear-no-such-hyp".


(* ================================================================= *)
(** ** Python strings *)

Module PyStr.

Definition nl : string := String (ascii_of_nat 10) "".

Definition sep : ascii := "/"%char.

(** [s.startswith(pre)] *)
Definition startswith (s pre : string) : bool := String.prefix pre s.

Fixpoint drop_chars (n : nat) (s : string) : string :=
  match n, s with
  | S n', String _ s' => drop_chars n' s'
  | _, _ => s
  end.

(** [s.removeprefix(pre)] *)
Definition removeprefix (s pre : string) : string :=
  if startswith s pre then drop_chars (String.length pre) s else s.

(** [s.split(c)] for a one-character separator; never returns the empty
    list. *)
Fixpoint split (c : ascii) (s : string) : list string :=
  match s with
  | EmptyString => [EmptyString]
  | String a s' =>
      if Ascii.eqb a c then EmptyString :: split c s'
      else match split c s' with
           | [] => [String a EmptyString]
           | w :: ws => String a w :: ws
           end
  end.

(** [s.endswith(c)] for a one-character suffix *)
Fixpoint endswith_char (s : string) (c : ascii) : bool :=
  match s with
  | EmptyString => false
  | String a EmptyString => Ascii.eqb a c
  | String _ s' => endswith_char s' c
  end.

(** [s.rstrip(c)] *)
Fixpoint rstrip (c : ascii) (s : string) : string :=
  match s with
  | EmptyString => EmptyString
  | String a s' =>
      match rstrip c s' with
      | EmptyString => if Ascii.eqb a c then EmptyString else String a EmptyString
      | r => String a r
      end
  end.

(** [s[:s.rfind(c) + 1]]: the part of [s] up to and including the last
    occurrence of [c]; [None] stands for the empty slice obtained when [c]
    does not occur. *)
Fixpoint upto_last (c : ascii) (s : string) : option string :=
  match s with
  | EmptyString => None
  | String a s' =>
      match upto_last c s' with
      | Some h => Some (String a h)
      | None => if Ascii.eqb a c then Some (String a EmptyString) else None
      end
  end.

(** [c in s] for a character [c] *)
Fixpoint has_char (c : ascii) (s : string) : bool :=
  match s with
  | EmptyString => false
  | String a s' => Ascii.eqb a c || has_char c s'
  end.

(** [c * k] *)
Fixpoint repeat_char (c : ascii) (k : nat) : string :=
  match k with
  | O => EmptyString
  | S k' => String c (repeat_char c k')
  end.

(** [str(x)] / [f'{x}'] for a value that is either a [str] or [None] *)
Definition str (x : option string) : string := from_option id "None" x.

(** [f'{b}'] for a [bool] *)
Definition str_bool (b : bool) : string := if b then "True" else "False".

End PyStr.

(* ================================================================= *)
(** ** [os.path] on strings (posixpath) *)

Module os_path.
Import PyStr.

(** One iteration of the loop of [posixpath.join]. *)
Definition join_step (path b : string) : string :=
  if startswith b "/" then b
  else if (String.eqb path "" || endswith_char path sep)%bool then path +:+ b
  else path +:+ "/" +:+ b.

(** [os.path.join(a, *p)] *)
Definition join (a : string) (p : list string) : string :=
  fold_left join_step p a.

(** [os.path.dirname(p)] *)
Definition dirname (p : string) : string :=
  let head := from_option id "" (upto_last sep p) in
  match rstrip sep head with
  | EmptyString => head          (* empty, or only separators *)
  | stripped => stripped
  end.

End os_path.

(* ================================================================= *)
(** ** Exceptions, objects, modules *)

Inductive exn :=
  | FileNotFoundError
  | FileExistsError
  | NotADirectoryError
  | IsADirectoryError
  | OSError
  | AttributeError (attr : string)
  | ModuleNotFoundError (name : string)
  | ValueError (msg : string)
  | TypeError (msg : string)
  | Exception (msg : string).

(** The result of a Python expression that may raise. *)
Abbreviation result A := (exn + A)%type.

(** A type object, as far as the script looks at it. *)
Record PyType := mkType {
  tp_name : string;        (* [T.__name__] *)
  tp_module : string       (* [T.__module__] *)
}.

(** [str], the class of every string value. *)
Definition str_type : PyType := mkType "str" "builtins".
Definition NoneType : PyType := mkType "NoneType" "builtins".

(** [s.__class__] for a string [s]. *)
Definition class_of_str (_ : string) : PyType := str_type.

(** A live object found among a module's members: the four [inspect]
    predicates (independent of each other, as nothing in the script forces
    them to be exclusive), the two attribute reads that may raise, and the
    object's runtime type. *)
Record PyObject := mkObject {
  isclass : bool;                (* [inspect.isclass(o)] *)
  isfunction : bool;             (* [inspect.isfunction(o)] *)
  ismodule : bool;               (* [inspect.ismodule(o)] *)
  isbuiltin : bool;              (* [inspect.isbuiltin(o)] *)
  signature : result string;     (* [str(inspect.signature(o))] *)
  obj_name : result string;      (* [o.__name__] *)
  type_of : PyType               (* [type(o)] *)
}.

(** A module object.  [__dict__] is the namespace in insertion order. *)
Record PyModule := mkModule {
  __name__ : string;
  __package__ : option string;          (* [None] is Python's [None] *)
  __path__ : option (list string);      (* absent on non-packages *)
  __dict__ : list (string * PyObject)
}.

Abbreviation loc := nat (only parsing).

(** The heap of module objects. *)
Abbreviation heap := (nat → PyModule) (only parsing).

(** [m.name = v]-style mutation of the object at [l]. *)
Definition heap_update (h : heap) (l : loc) (m : PyModule) : heap :=
  λ l', if Nat.eqb l' l then m else h l'.

(** [inspect.getmembers(obj)]: the (name, value) pairs sorted by name
    (a stable insertion sort on the name). *)
Fixpoint insert_member (x : string * PyObject) (l : list (string * PyObject))
  : list (string * PyObject) :=
  match l with
  | [] => [x]
  | y :: l' => if String.leb x.1 y.1 then x :: y :: l' else y :: insert_member x l'
  end.

Definition getmembers (m : PyModule) : list (string * PyObject) :=
  foldr insert_member [] (__dict__ m).

(** [pkgutil.ModuleInfo] *)
Record ModuleInfo := mkModuleInfo { mi_name : string; mi_ispkg : bool }.

(** The interpreter environment of a run. *)
Record Env := mkEnv {
  (** the process's working directory, innermost component first *)
  cwd : list string;
  (** what a scan of a module search path finds: base names, each flagged
      as package or not *)
  scan : list string → list (string * bool);
  (** [importlib.import_module(name)] *)
  import_module : string → result loc
}.

(** [pkgutil.iter_modules(path, prefix)] *)
Definition iter_modules (env : Env) (path : list string) (prefix : string)
  : list ModuleInfo :=
  map (λ '(base, ispkg), mkModuleInfo (prefix +:+ base) ispkg) (scan env path).

(* ================================================================= *)
(** ** The file system and the monad of effects *)

Inductive node := File (data : string) | Dir.

Global Instance node_eq_dec : EqDecision node.
Proof. solve_decision. Defined.

(** Resolved paths list their components innermost first, so that the parent
    of [c :: p] is [p] and the root is [[]]. *)
Abbreviation path := (list string) (only parsing).
Abbreviation FS := (gmap (list string) node) (only parsing).

(** The root directory always exists and is not stored in the map. *)
Definition lookup_node (fs : FS) (p : path) : option node :=
  match p with
  | [] => Some Dir
  | _ => fs !! p
  end.

(** [p] lies in the subtree rooted at [d] ([d] itself included). *)
Abbreviation under d p := (d `suffix_of` p) (only parsing).

Fixpoint normalize (acc : path) (cs : list string) : path :=
  match cs with
  | [] => acc
  | c :: cs' =>
      if bool_decide (c = "" ∨ c = ".") then normalize acc cs'
      else if bool_decide (c = "..") then normalize (tail acc) cs'
      else normalize (c :: acc) cs'
  end.

(** Lexical resolution of a path string against the working directory. *)
Definition resolve (env : Env) (s : string) : path :=
  normalize (if PyStr.startswith s "/" then [] else cwd env)
            (PyStr.split PyStr.sep s).

Inductive outcome (A : Type) :=
  | Ok (a : A) (fs : FS)
  | Raise (e : exn) (fs : FS)
  | OutOfFuel.
Arguments Ok {A} a fs.
Arguments Raise {A} e fs.
Arguments OutOfFuel {A}.

(** Computations that read and write the file system and may raise; the file
    system reached so far survives an exception. *)
Definition M (A : Type) : Type := FS → outcome A.

Definition ret {A} (a : A) : M A := λ fs, Ok a fs.

Definition raise {A} (e : exn) : M A := λ fs, Raise e fs.

Definition bind {A B} (c : M A) (k : A → M B) : M B :=
  λ fs, match c fs with
        | Ok a fs' => k a fs'
        | Raise e fs' => Raise e fs'
        | OutOfFuel => OutOfFuel
        end.

Definition lift {A} (r : result A) : M A :=
  match r with
  | inl e => raise e
  | inr a => ret a
  end.

Declare Scope py_scope.
Delimit Scope py_scope with py.
Notation "x <- c ;; k" := (bind c (λ x, k))
  (at level 100, c at next level, right associativity) : py_scope.
Notation "c ;; k" := (bind c (λ _, k))
  (at level 100, right associativity) : py_scope.
Local Open Scope py_scope.

(** [for x in l: body(x)] *)
Fixpoint for_each {A} (l : list A) (body : A → M unit) : M unit :=
  match l with
  | [] => ret tt
  | x :: l' => body x ;; for_each l' body
  end.

(** The operating-system calls the script makes. *)
Module os.

(** [os.path.exists(s)] *)
Definition path_exists (env : Env) (s : string) : M bool :=
  λ fs, Ok (if String.eqb s "" then false
            else bool_decide (is_Some (lookup_node fs (resolve env s)))) fs.

(** [os.mkdir] on a resolved path *)
Definition mkdir (p : path) : M unit :=
  λ fs, match p with
        | [] => Raise FileExistsError fs
        | _ :: parent =>
            match lookup_node fs parent with
            | None => Raise FileNotFoundError fs
            | Some (File _) => Raise NotADirectoryError fs
            | Some Dir =>
                match fs !! p with
                | Some _ => Raise FileExistsError fs
                | None => Ok tt (<[p := Dir]> fs)
                end
            end
        end.

(** [os.makedirs] on a resolved path: the missing ancestors are created
    first, innermost last. *)
Fixpoint makedirs_at (p : path) : M unit :=
  match p with
  | [] => mkdir []
  | _ :: parent =>
      (λ fs, if bool_decide (is_Some (lookup_node fs parent)) then Ok tt fs
             else makedirs_at parent fs) ;;
      mkdir p
  end.

(** [os.makedirs(s)] *)
Definition makedirs (env : Env) (s : string) : M unit :=
  if String.eqb s "" then raise FileNotFoundError
  else makedirs_at (resolve env s).

(** [open(s, 'w')]: creates or truncates the file; the handle is the
    resolved path. *)
Definition open_w (env : Env) (s : string) : M (list string) :=
  if String.eqb s "" then raise FileNotFoundError
  else
    let p := resolve env s in
    λ fs, match p with
          | [] => Raise IsADirectoryError fs
          | _ :: parent =>
              match lookup_node fs parent with
              | None => Raise FileNotFoundError fs
              | Some (File _) => Raise NotADirectoryError fs
              | Some Dir =>
                  match fs !! p with
                  | Some Dir => Raise IsADirectoryError fs
                  | _ => Ok p (<[p := File ""]> fs)
                  end
              end
          end.

(** [f.write(data)] *)
Definition write (f : path) (data : string) : M unit :=
  λ fs, Ok tt (alter (λ n, match n with
                           | File old => File (old +:+ data)
                           | Dir => Dir
                           end) f fs).

(** [shutil.rmtree(s)] *)
Definition rmtree (env : Env) (s : string) : M unit :=
  if String.eqb s "" then raise FileNotFoundError
  else
    let p := resolve env s in
    λ fs, match p with
          | [] => Raise OSError (filter (λ kv, ¬ under p kv.1) fs)
          | _ =>
              match fs !! p with
              | None => Raise FileNotFoundError fs
              | Some (File _) => Raise NotADirectoryError fs
              | Some Dir => Ok tt (filter (λ kv, ¬ under p kv.1) fs)
              end
          end.

End os.

(* ================================================================= *)
(** ** [class ModuleStubGenerator] *)

Module ModuleStubGenerator.
Import PyStr.

Record t := mk {
  _obj : loc;
  _members : list (string * PyObject)
}.

(** [__init__(self, obj)]: the member list is taken here, once. *)
Definition __init__ (h : heap) (obj : loc) : t :=
  {| _obj := obj; _members := getmembers (h obj) |}.

Section generate.
Context (h : heap) (env : Env).

(** The body of the loop over [self._members], for one member. *)
Definition write_member (f : path) (name : string) (member : PyObject)
  : M unit :=
  if startswith name "__" then ret tt       (* continue *)
  else
    (if isclass member then
       os.write f ("class " +:+ name +:+ ":" +:+ nl +:+ "    ...")
     else if isfunction member then
       sig <- lift (signature member) ;;
       os.write f ("def " +:+ name +:+ sig +:+ ": ...")
     else if ismodule member then
       member_name <- lift (obj_name member) ;;
       os.write f ("import " +:+ member_name +:+ "  # type: ignore")
     else if isbuiltin member then
       os.write f ("# Built-in: " +:+ name)
     else
       let obj_type := tp_name (type_of member) in
       let obj_module := tp_module (class_of_str obj_type) in
       let obj_type :=
         if String.eqb obj_type "NoneType" then None else Some obj_type in
       let is_builtin := String.eqb obj_module "builtins" in
       os.write f (name +:+ ": " +:+ str obj_type +:+ " # builtin: "
                   +:+ obj_module +:+ " " +:+ str_bool is_builtin)) ;;
    os.write f (nl +:+ nl).

Definition package (self : t) : string := str (__package__ (h (_obj self))).

Definition module_name (self : t) : string :=
  removeprefix (__name__ (h (_obj self))) (package self +:+ ".").

Definition output_file (self : t) (output_folder : string) : string :=
  os_path.join output_folder
    (split "."%char (package self) ++ [module_name self +:+ ".pyi"]).

Definition root_folder (self : t) (output_folder : string) : string :=
  os_path.dirname (output_file self output_folder).

Definition header (self : t) : string :=
  "# Auto generatded stub from stubby.py " +:+ __name__ (h (_obj self))
  +:+ nl +:+ nl.

(** [generate(self, output_folder)] *)
Definition generate (self : t) (output_folder : string) : M unit :=
  let output_file := output_file self output_folder in
  let root_folder := root_folder self output_folder in
  found <- os.path_exists env root_folder ;;
  (if negb found then os.makedirs env root_folder else ret tt) ;;
  f <- os.open_w env output_file ;;
  os.write f (header self) ;;
  for_each (_members self) (λ '(name, member), write_member f name member).

End generate.
End ModuleStubGenerator.

(* ================================================================= *)
(** ** [class StubGenerator] *)

Module StubGenerator.
Import PyStr.

Record t := mk { module : loc }.

Section generate.
Context (h : heap) (env : Env).

(** [_generate_stubs(self, module, output_folder, _package=None)].
    [fuel] bounds the depth of the recursion into subpackages. *)
Fixpoint _generate_stubs (fuel : nat) (module : loc)
    (output_folder : string) (_package : option string) : M unit :=
  match fuel with
  | O => λ _, OutOfFuel
  | S fuel' =>
      let _package :=
        match _package with
        | None => __package__ (h module)
        | Some p => Some p
        end in
      search_path <-
        lift (from_option inr (inl (AttributeError "__path__"))
                (__path__ (h module))) ;;
      for_each (iter_modules env search_path (str _package +:+ "."))
        (λ modinfo,
           loaded <- lift (import_module env (mi_name modinfo)) ;;
           if mi_ispkg modinfo then
             _generate_stubs fuel' loaded output_folder
               (Some (str (__package__ (h loaded))))
           else
             let generator := ModuleStubGenerator.__init__ h loaded in
             ModuleStubGenerator.generate h env generator output_folder)
  end.

(** [generate(self, output_folder, flush_old=False)] *)
Definition generate (fuel : nat) (self : t) (output_folder : string)
    (flush_old : bool) : M unit :=
  found <- (if flush_old then os.path_exists env output_folder
            else ret false) ;;
  (if found then os.rmtree env output_folder else ret tt) ;;
  _generate_stubs fuel (module self) output_folder None.

End generate.
End StubGenerator.

(** [main()]; [__file__] is the path of the script. *)
Definition main (h : heap) (env : Env) (fuel : nat) (__file__ : string)
  : M unit :=
  stubbytest <- lift (import_module env "stubbytest") ;;
  let root := os_path.dirname __file__ in
  let generator := StubGenerator.mk stubbytest in
  StubGenerator.generate h env fuel generator
    (os_path.join root ["dist"; "stubs"]) true.

(* ================================================================= *)
(** ** Specification-level definitions *)

Section spec.
Import PyStr.
Context (h : heap) (env : Env).

(** The five member kinds of the specification, as a closed variant. *)
Inductive kind := KClass | KFunction | KModule | KBuiltin | KValue.

(** Class before function, function before module, module before builtin
    callable; anything else is a plain value. *)
Definition classify (member : PyObject) : kind :=
  if isclass member then KClass
  else if isfunction member then KFunction
  else if ismodule member then KModule
  else if isbuiltin member then KBuiltin
  else KValue.

(** The line the script writes for a plain value of type name [tyname]. *)
Definition value_line (name tyname : string) : string :=
  name +:+ ": " +:+ (if String.eqb tyname "NoneType" then "None" else tyname)
  +:+ " # builtin: builtins True".

(** One rendering rule per kind. *)
Definition declaration (k : kind) (name : string) (member : PyObject)
  : result string :=
  match k with
  | KClass => inr ("class " +:+ name +:+ ":" +:+ nl +:+ "    ...")
  | KFunction =>
      match signature member with
      | inl e => inl e
      | inr sig => inr ("def " +:+ name +:+ sig +:+ ": ...")
      end
  | KModule =>
      match obj_name member with
      | inl e => inl e
      | inr member_name => inr ("import " +:+ member_name +:+ "  # type: ignore")
      end
  | KBuiltin => inr ("# Built-in: " +:+ name)
  | KValue => inr (value_line name (tp_name (type_of member)))
  end.

(** The loop body of the renderer, driven by [classify]. *)
Definition write_member_by_kind (f : path) (name : string)
    (member : PyObject) : M unit :=
  (if startswith name "__" then ret tt
   else (text <- lift (declaration (classify member) name member) ;;
         os.write f text) ;;
        os.write f (nl +:+ nl))%py.

(** The attribute line the specification describes: the comment names the
    module that defines the value's runtime type and says whether that
    module is [builtins]. *)
Definition attribute_line_spec (name : string) (member : PyObject) : string :=
  let ty := type_of member in
  name +:+ ": "
  +:+ (if String.eqb (tp_name ty) "NoneType" then "None" else tp_name ty)
  +:+ " # builtin: " +:+ tp_module ty +:+ " "
  +:+ str_bool (String.eqb (tp_module ty) "builtins").

(** A member is public when its name does not start with two
    underscores. *)
Definition public (nm : string * PyObject) : bool := negb (startswith nm.1 "__").

(** One block of the output: a declaration and the blank line ending it. *)
Definition block (text : string) : string := text +:+ nl +:+ nl.

Definition concat_blocks (texts : list string) : string :=
  foldr (λ t acc, block t +:+ acc) "" texts.

(** What the member loop writes: the text produced up to the first
    failure, and that failure if there is one. *)
Fixpoint render_members (l : list (string * PyObject)) : string * option exn :=
  match l with
  | [] => ("", None)
  | (name, member) :: l' =>
      if startswith name "__" then render_members l'
      else match declaration (classify member) name member with
           | inl e => ("", Some e)
           | inr text =>
               let '(rest, r) := render_members l' in (block text +:+ rest, r)
           end
  end.

Definition finish (r : option exn) : M unit :=
  match r with
  | None => ret tt
  | Some e => raise e
  end.

(** [if not os.path.exists(s): os.makedirs(s)] *)
Definition ensure_dir (s : string) : M unit :=
  (found <- os.path_exists env s ;;
   if negb found then os.makedirs env s else ret tt)%py.

(** The body of the loop of [_generate_stubs], [fuel] being the recursion
    depth that is left for subpackages. *)
Definition visit_child (output_folder : string) (fuel : nat)
    (modinfo : ModuleInfo) : M unit :=
  (loaded <- lift (import_module env (mi_name modinfo)) ;;
   if mi_ispkg modinfo then
     StubGenerator._generate_stubs h env fuel loaded output_folder
       (Some (str (__package__ (h loaded))))
   else
     ModuleStubGenerator.generate h env (ModuleStubGenerator.__init__ h loaded)
       output_folder)%py.

(** The flush step of [StubGenerator.generate]. *)
Definition flush_step (output_folder : string) (flush_old : bool) : M unit :=
  (found <- (if flush_old then os.path_exists env output_folder
             else ret false) ;;
   if found then os.rmtree env output_folder else ret tt)%py.

(** The renderer applied to each module of a list, in order. *)
Definition render_all (output_folder : string) (ls : list loc) : M unit :=
  for_each ls (λ l, ModuleStubGenerator.generate h env
                      (ModuleStubGenerator.__init__ h l) output_folder).

(** The result of importing one child during the walk. *)
Definition child_leaves (rec : loc → option string → option (list loc))
    (modinfo : ModuleInfo) : option (list loc) :=
  match import_module env (mi_name modinfo) with
  | inl _ => None
  | inr loaded =>
      if mi_ispkg modinfo
      then rec loaded (Some (str (__package__ (h loaded))))
      else Some [loaded]
  end.

(** The leaf modules the walk hands to the renderer, in order: the
    traversal of [_generate_stubs] with the file-system effects left out.
    [None] when an import fails, a walked module has no [__path__], or the
    fuel runs out. *)
Fixpoint leaf_modules (fuel : nat) (module : loc) (_package : option string)
  : option (list loc) :=
  match fuel with
  | O => None
  | S fuel' =>
      let _package :=
        match _package with
        | None => __package__ (h module)
        | Some p => Some p
        end in
      search_path ← __path__ (h module);
      @concat nat <$> mapM (child_leaves (leaf_modules fuel'))
                      (iter_modules env search_path (str _package +:+ "."))
  end.

(** The packages the walk enters, with the dotted name used as prefix for
    their children: the root with its own package name, and every child
    flagged as a package, under its dotted name. *)
Inductive walked (root : loc) : loc → string → Prop :=
  | walked_root : walked root root (str (__package__ (h root)))
  | walked_sub pkg prefix search_path modinfo loaded :
      walked root pkg prefix →
      __path__ (h pkg) = Some search_path →
      modinfo ∈ iter_modules env search_path (prefix +:+ ".") →
      mi_ispkg modinfo = true →
      import_module env (mi_name modinfo) = inr loaded →
      walked root loaded (__name__ (h loaded)).

(** The whole text of a module's stub, up to the first failure, and that
    failure if there is one. *)
Definition stub_text (self : ModuleStubGenerator.t) : string * option exn :=
  let '(body, r) := render_members (ModuleStubGenerator._members self) in
  (ModuleStubGenerator.header h self +:+ body, r).

(** The file [f] receives the stub text; the failure, if any, is raised
    once the text produced before it is in the file. *)
Definition store_stub (f : path) (self : ModuleStubGenerator.t) : M unit :=
  λ fs, finish (stub_text self).2 (<[f := File (stub_text self).1]> fs).

(** The renderer as three steps: make sure the folder is there, open the
    file, fill it. *)
Definition generate_steps (self : ModuleStubGenerator.t)
    (output_folder : string) : M unit :=
  (ensure_dir (ModuleStubGenerator.root_folder h self output_folder) ;;
   f <- os.open_w env (ModuleStubGenerator.output_file h self output_folder) ;;
   store_stub f self)%py.

(** Every entry has a directory as its parent. *)
Definition wf_fs (fs : FS) : Prop :=
  ∀ c parent, is_Some (fs !! (c :: parent)) → lookup_node fs parent = Some Dir.

(** No regular file sits at [p] or above it. *)
Definition no_file_above (fs : FS) (p : path) : Prop :=
  ∀ q data, q `suffix_of` p → lookup_node fs q ≠ Some (File data).



(** [wf_fs], computed. *)
Definition wf_fsb (fs : FS) : bool :=
  forallb (λ kv : list string * node,
             match kv.1 with
             | [] => true
             | _ :: parent => bool_decide (lookup_node fs parent = Some Dir)
             end)
          (map_to_list fs).



End spec.

(** The file system a computation ends in. *)
Definition final_fs (start : FS) (c : M unit) : FS :=
  match c start with
  | Ok _ fs' => fs'
  | Raise _ fs' => fs'
  | OutOfFuel => start
  end.

(** The computation returned. *)
Definition completes {A} (o : outcome A) : bool :=
  match o with
  | Ok _ _ => true
  | _ => false
  end.

(** The state a computation stops in, when it returns or raises, satisfies
    [P]. *)
Definition ends_in {A} (o : outcome A) (P : FS → Prop) : Prop :=
  match o with
  | Ok _ fs' => P fs'
  | Raise _ fs' => P fs'
  | OutOfFuel => True
  end.

(** [l] is a module object the importer returns for some name. *)
Definition importable (env : Env) (l : loc) : Prop :=
  ∃ name, import_module env name = inr l.

(** What rendering modules taken from [known] may do to the entry at [p]:
    nothing, make a directory where nothing was, or put the stub of such a
    module at that module's output path, where no directory was. *)
Definition rendered_at (h : heap) (env : Env) (output_folder : string)
    (known : loc → Prop) (fs fs' : FS) (p : path) : Prop :=
  lookup_node fs' p = lookup_node fs p
  ∨ (lookup_node fs p = None ∧ lookup_node fs' p = Some Dir)
  ∨ ∃ l, known l
         ∧ p = resolve env (ModuleStubGenerator.output_file h
                            (ModuleStubGenerator.__init__ h l) output_folder)
         ∧ lookup_node fs p ≠ Some Dir
         ∧ lookup_node fs' p
           = Some (File (stub_text h (ModuleStubGenerator.__init__ h l)).1).



(* ================================================================= *)
(** ** A small package, used to exercise the model

    [shapes/] holds a module [geometry] and a subpackage [io] with one
    module [reader]; [legacy] is a module the walk does not find. *)

Module Demo.

Definition Point : PyType := mkType "Point" "shapes.geometry".

(** An object that is neither class, function, module nor builtin. *)
Definition plain (ty : PyType) : PyObject :=
  mkObject false false false false
    (inl (TypeError "object is not callable"))
    (inl (AttributeError "__name__")) ty.

Definition function (name sig : string) : PyObject :=
  mkObject false true false false (inr sig) (inr name)
    (mkType "function" "builtins").

Definition origin : PyObject := plain Point.

Definition geometry : PyModule :=
  mkModule "shapes.geometry" (Some "shapes") None
    [ ("origin", origin);
      ("__version__", plain str_type);
      ("area", function "area" "(w, h=1)");
      ("ZERO", plain NoneType);
      ("Point", mkObject true false false false (inr "(x, y)") (inr "Point")
                  (mkType "type" "builtins"));
      ("math", mkObject false false true false (inl (TypeError "not callable"))
                 (inr "math") (mkType "module" "builtins"));
      ("sqrt", mkObject false false false true
                 (inl (ValueError "no signature found")) (inr "sqrt")
                 (mkType "builtin_function_or_method" "builtins")) ].

Definition shapes : PyModule :=
  mkModule "shapes" (Some "shapes") (Some ["/src/shapes"]) [].

Definition io : PyModule :=
  mkModule "shapes.io" (Some "shapes.io") (Some ["/src/shapes/io"]) [].

Definition reader : PyModule :=
  mkModule "shapes.io.reader" (Some "shapes.io") None
    [ ("read", function "read" "(path: str) -> bytes") ].

(** A module with a function whose signature cannot be computed. *)
Definition legacy : PyModule :=
  mkModule "shapes.legacy" (Some "shapes") None
    [ ("alpha", function "alpha" "()");
      ("beta", mkObject false true false false
                 (inl (ValueError "no signature found")) (inr "beta")
                 (mkType "function" "builtins"));
      ("gamma", function "gamma" "(x)") ].

Definition h : heap :=
  λ l, match l with
       | 0 => shapes
       | 1 => geometry
       | 2 => io
       | 3 => reader
       | _ => legacy
       end.

Definition env : Env :=
  mkEnv ["work"]
    (λ search_path,
       if bool_decide (search_path = ["/src/shapes"])
       then [("geometry", false); ("io", true)]
       else if bool_decide (search_path = ["/src/shapes/io"])
       then [("reader", false)]
       else [])
    (λ name,
       if String.eqb name "shapes.geometry" then inr 1
       else if String.eqb name "shapes.io" then inr 2
       else if String.eqb name "shapes.io.reader" then inr 3
       else inl (ModuleNotFoundError name)).

(** [/work/dist/stubs] exists and holds a file that is no stub. *)
Definition fs : FS :=
  <[ ["notes.txt"; "stubs"; "dist"; "work"] := File "keep me" ]>
  (<[ ["stubs"; "dist"; "work"] := Dir ]>
  (<[ ["dist"; "work"] := Dir ]>
  (<[ ["work"] := Dir ]> ∅))).

(** Only the working directory exists. *)
Definition fs_bare : FS := <[ ["work"] := Dir ]> ∅.

Definition out : string := "dist/stubs".

Definition walker : StubGenerator.t := StubGenerator.mk 0.

(** [geometry] after [geometry.__name__ = "shapes.renamed"]. *)
Definition h_renamed : heap :=
  heap_update h 1
    (mkModule "shapes.renamed" (__package__ geometry) (__path__ geometry)
       (__dict__ geometry)).

(** [geometry] after [del geometry.origin; geometry.extra = ...]. *)
Definition h_rebound : heap :=
  heap_update h 1
    (mkModule (__name__ geometry) (__package__ geometry) (__path__ geometry)
       [ ("extra", function "extra" "()") ]).

(** The file system after a run from [start], the flush flag set. *)
Definition fs_after (start : FS) : FS :=
  final_fs start (StubGenerator.generate h env 3 walker out true).

(** The renderer for [geometry], built while [geometry] is as in [h]. *)
Definition generator : ModuleStubGenerator.t := ModuleStubGenerator.__init__ h 1.

(** After [generator.generate(out)] on the bare file system. *)
Definition first_call : FS :=
  final_fs fs_bare (ModuleStubGenerator.generate h env generator out).

(** After a second [generator.generate(out)], the module having been
    renamed in between. *)
Definition second_call : FS :=
  final_fs first_call (ModuleStubGenerator.generate h_renamed env generator out).

Definition geometry_stub : path := ["geometry.pyi"; "shapes"; "stubs"; "dist"; "work"].
Definition renamed_stub : path := ["renamed.pyi"; "shapes"; "stubs"; "dist"; "work"].

(** A package whose subpackage cannot be imported. *)
Definition env_broken : Env :=
  mkEnv (cwd env) (scan env)
    (λ name, if String.eqb name "shapes.io"
             then inl (ModuleNotFoundError name)
             else import_module env name).

End Demo.

(* ================================================================= *)
(** ** The package [main] is run on

    [/repo/stubby.py] is the script; beside it the package [stubbytest] with
    one module [alpha].  [hollow] is a package without children, [toplevel]
    a module outside any package, [rooted] a module whose name has been set
    to a path. *)

Module Stubbytest.

Definition package : PyModule :=
  mkModule "stubbytest" (Some "stubbytest") (Some ["/repo/stubbytest"]) [].

Definition alpha : PyModule :=
  mkModule "stubbytest.alpha" (Some "stubbytest") None
    [ ("__doc__", Demo.plain NoneType);
      ("run", Demo.function "run" "(n: int = 0)");
      ("LIMIT", Demo.plain (mkType "int" "builtins")) ].

Definition hollow : PyModule :=
  mkModule "hollow" (Some "hollow") (Some ["/repo/hollow"]) [].

Definition toplevel : PyModule :=
  mkModule "toplevel" (Some "") None [ ("go", Demo.function "go" "()") ].

Definition rooted : PyModule :=
  mkModule "/srv/rooted" (Some "stubbytest") None [].

Definition h : heap :=
  λ l, match l with
       | 0 => package
       | 1 => alpha
       | 2 => hollow
       | 3 => toplevel
       | _ => rooted
       end.

Definition env : Env :=
  mkEnv ["repo"]
    (λ search_path,
       if bool_decide (search_path = ["/repo/stubbytest"])
       then [("alpha", false)]
       else [])
    (λ name,
       if String.eqb name "stubbytest" then inr 0
       else if String.eqb name "stubbytest.alpha" then inr 1
       else inl (ModuleNotFoundError name)).

Definition __file__ : string := "/repo/stubby.py".

(** [/repo/dist/stubs] holds a stub of an earlier run. *)
Definition fs : FS :=
  <[ ["beta.pyi"; "stubs"; "dist"; "repo"] := File "# stale" ]>
  (<[ ["stubs"; "dist"; "repo"] := Dir ]>
  (<[ ["dist"; "repo"] := Dir ]>
  (<[ ["stubby.py"; "repo"] := File "import inspect" ]>
  (<[ ["repo"] := Dir ]> ∅)))).

(** A renderer whose snapshot holds dunder names only. *)
Definition private_only : ModuleStubGenerator.t :=
  ModuleStubGenerator.mk 1
    [ ("__doc__", Demo.plain NoneType); ("__file__", Demo.plain str_type) ].

End Stubbytest.

(* ================================================================= *)
(** * Proofs *)

Local Open Scope py_scope.

(** ** Strings *)

Lemma append_cons (a : ascii) (s t : string) :
  String a s +:+ t = String a (s +:+ t).
Proof. reflexivity. Qed.

Lemma append_nil_l (s : string) : "" +:+ s = s.
Proof. reflexivity. Qed.

Lemma append_nil_r (s : string) : s +:+ "" = s.
Proof. induction s as [|a s IH]; [done|]. by rewrite append_cons, IH. Qed.

Lemma append_assoc (s t u : string) : (s +:+ t) +:+ u = s +:+ (t +:+ u).
Proof. induction s as [|a s IH]; [done|]. by rewrite !append_cons, IH. Qed.

Lemma prefix_append (s t : string) : String.prefix s (s +:+ t) = true.
Proof.
  induction s as [|a s IH]; [by destruct t|].
  rewrite append_cons. cbn. by destruct (ascii_dec a a).
Qed.

Lemma drop_chars_append (s t : string) :
  PyStr.drop_chars (String.length s) (s +:+ t) = t.
Proof. induction s as [|a s IH]; [by destruct t|]. by rewrite append_cons. Qed.

(** [removeprefix] removes a prefix that is there. *)
Lemma removeprefix_append (pre s : string) :
  PyStr.removeprefix (pre +:+ s) pre = s.
Proof.
  unfold PyStr.removeprefix, PyStr.startswith.
  by rewrite prefix_append, drop_chars_append.
Qed.

(** [removeprefix] leaves a string without that prefix alone. *)
Lemma removeprefix_absent (pre s : string) :
  PyStr.startswith s pre = false → PyStr.removeprefix s pre = s.
Proof. unfold PyStr.removeprefix. by intros ->. Qed.

(** ** The monad *)

Lemma bind_Ok_inv {A B} (c : M A) (k : A → M B) fs b fs2 :
  bind c k fs = Ok b fs2 → ∃ a fs1, c fs = Ok a fs1 ∧ k a fs1 = Ok b fs2.
Proof. unfold bind. destruct (c fs) as [a fs1|e fs1|]; naive_solver. Qed.

Lemma bind_Ok {A B} (c : M A) (k : A → M B) fs a fs1 :
  c fs = Ok a fs1 → bind c k fs = k a fs1.
Proof. unfold bind. by intros ->. Qed.

Lemma bind_Raise {A B} (c : M A) (k : A → M B) fs e fs1 :
  c fs = Raise e fs1 → bind c k fs = Raise e fs1.
Proof. unfold bind. by intros ->. Qed.

Lemma bind_assoc {A B C} (c : M A) (k : A → M B) (k' : B → M C) fs :
  bind (bind c k) k' fs = bind c (λ a, bind (k a) k') fs.
Proof. unfold bind. by destruct (c fs). Qed.

Lemma bind_ext {A B} (c : M A) (k k' : A → M B) fs :
  (∀ a fs1, k a fs1 = k' a fs1) → bind c k fs = bind c k' fs.
Proof. intros Hk. unfold bind. by destruct (c fs). Qed.

Lemma for_each_ext {A} (l : list A) (f g : A → M unit) fs :
  (∀ x fs1, f x fs1 = g x fs1) → for_each l f fs = for_each l g fs.
Proof.
  intros Hfg. revert fs. induction l as [|x l IH]; intros fs; [done|].
  simpl. unfold bind. rewrite Hfg. destruct (g x fs); auto.
Qed.

Lemma for_each_app {A} (l1 l2 : list A) (f : A → M unit) fs :
  for_each (l1 ++ l2) f fs = (for_each l1 f ;; for_each l2 f) fs.
Proof.
  revert fs. induction l1 as [|x l1 IH]; intros fs; simpl.
  - done.
  - rewrite bind_assoc. by apply bind_ext.
Qed.

(** A loop stops at the first iteration that raises: the iterations before
    it have run, the ones after it have not. *)
Lemma for_each_Raise {A} (done_ rest : list A) (x : A) (f : A → M unit)
    fs fs1 e fs2 :
  for_each done_ f fs = Ok tt fs1 →
  f x fs1 = Raise e fs2 →
  for_each (done_ ++ x :: rest) f fs = Raise e fs2.
Proof.
  intros Hdone Hx. rewrite for_each_app. rewrite (bind_Ok _ _ _ _ _ Hdone).
  simpl. by rewrite (bind_Raise _ _ _ _ _ Hx).
Qed.

(** ** Member classification *)

Lemma write_member_classified (f : path) (name : string) (member : PyObject) fs :
  ModuleStubGenerator.write_member f name member fs
  = write_member_by_kind f name member fs.
Proof.
  unfold ModuleStubGenerator.write_member, write_member_by_kind, classify.
  destruct (PyStr.startswith name "__"); [done|].
  destruct (isclass member); [done|].
  destruct (isfunction member).
  { cbn. by destruct (signature member). }
  destruct (ismodule member).
  { cbn. by destruct (obj_name member). }
  destruct (isbuiltin member); [done|].
  cbn. unfold value_line, class_of_str. cbn.
  by destruct (String.eqb (tp_name (type_of member)) "NoneType").
Qed.

(** C2. The loop body of [ModuleStubGenerator.generate] renders a member by
    the rule of its kind, and the kind is decided by the first predicate that
    holds in the order class, function, module, builtin callable; a member
    for which none holds is a plain value.  Each member has exactly one
    kind. *)
Theorem member_rendered_by_first_matching_kind
    (f : path) (name : string) (member : PyObject) :
  (∀ fs, ModuleStubGenerator.write_member f name member fs
         = write_member_by_kind f name member fs)
  ∧ (classify member = KClass ↔ isclass member = true)
  ∧ (classify member = KFunction ↔
       isclass member = false ∧ isfunction member = true)
  ∧ (classify member = KModule ↔
       isclass member = false ∧ isfunction member = false
       ∧ ismodule member = true)
  ∧ (classify member = KBuiltin ↔
       isclass member = false ∧ isfunction member = false
       ∧ ismodule member = false ∧ isbuiltin member = true)
  ∧ (classify member = KValue ↔
       isclass member = false ∧ isfunction member = false
       ∧ ismodule member = false ∧ isbuiltin member = false).
Proof.
  split; [intros fs; apply write_member_classified|].
  unfold classify.
  destruct (isclass member), (isfunction member), (ismodule member),
    (isbuiltin member); intuition congruence.
Qed.

(** ** The attribute line *)

(** For a plain value the comment the script writes never depends on the
    module that defines the value's type. *)
Lemma plain_value_line (name : string) (member : PyObject) :
  classify member = KValue →
  declaration (classify member) name member
  = inr (value_line name (tp_name (type_of member))).
Proof. by intros ->. Qed.

(** C1. On [origin], an instance of the class [Point] that the module
    [shapes.geometry] defines, the loop body writes a comment that names
    [builtins] and says [True], where the specification's line names
    [shapes.geometry] and says [False]. *)
Theorem attribute_comment_reports_builtins_for_user_type :
  ModuleStubGenerator.write_member ["m.pyi"] "origin" Demo.origin
    {[ ["m.pyi"] := File "" ]}
  = Ok tt {[ ["m.pyi"] :=
             File ("origin: Point # builtin: builtins True"
                   +:+ PyStr.nl +:+ PyStr.nl) ]}
  ∧ attribute_line_spec "origin" Demo.origin
    = "origin: Point # builtin: shapes.geometry False".
Proof. split; [by vm_compute|reflexivity]. Qed.

(** ** Writing the stub file *)

Lemma write_file (f : path) (old data : string) (fs : FS) :
  fs !! f = Some (File old) →
  os.write f data fs = Ok tt (<[f := File (old +:+ data)]> fs).
Proof.
  intros Hf. unfold os.write. f_equal. apply map_eq. intros q.
  rewrite lookup_alter, lookup_insert. case_decide; [|done].
  subst q. by rewrite Hf.
Qed.

(** The member loop appends the rendered members to the open file. *)
Lemma member_loop (f : path) (members : list (string * PyObject)) :
  ∀ (old : string) (fs : FS),
    fs !! f = Some (File old) →
    for_each members
      (λ '(name, member), ModuleStubGenerator.write_member f name member) fs
    = finish (render_members members).2
        (<[f := File (old +:+ (render_members members).1)]> fs).
Proof.
  induction members as [|[name member] members IH]; intros old fs Hf.
  { cbn. unfold ret. by rewrite append_nil_r, insert_id. }
  cbn [for_each render_members]. unfold bind at 1.
  rewrite write_member_classified. unfold write_member_by_kind.
  destruct (PyStr.startswith name "__") eqn:Hdunder.
  { cbn. by apply IH. }
  destruct (declaration (classify member) name member) as [e|text] eqn:Hdecl.
  { cbn. unfold raise. by rewrite append_nil_r, insert_id. }
  cbn [lift]. unfold bind, ret.
  rewrite (write_file f old text fs Hf).
  erewrite write_file by apply lookup_insert_eq.
  rewrite insert_insert_eq.
  erewrite IH by apply lookup_insert_eq.
  rewrite insert_insert_eq.
  destruct (render_members members) as [rest r]. cbn [fst snd].
  unfold block. by rewrite !append_assoc.
Qed.

Lemma open_w_Ok_inv (env : Env) (s : string) (fs : FS) (f : path) (fs2 : FS) :
  os.open_w env s fs = Ok f fs2 →
  s ≠ "" ∧ f = resolve env s ∧ fs2 = <[f := File ""]> fs
  ∧ fs !! f ≠ Some Dir
  ∧ ∃ c parent, f = c :: parent ∧ lookup_node fs parent = Some Dir.
Proof.
  unfold os.open_w. destruct (String.eqb_spec s "") as [->|Hs]; [done|].
  destruct (resolve env s) as [|c parent] eqn:Hp; [done|].
  destruct (lookup_node fs parent) as [[?|]|] eqn:Hparent; try done.
  destruct (fs !! (c :: parent)) as [[?|]|] eqn:Hold; try done;
    intros [= <- <-]; rewrite ?Hold; eauto 10.
Qed.

Lemma open_w_Ok (env : Env) (s : string) (fs : FS) (c : string) (parent : path) :
  s ≠ "" →
  resolve env s = c :: parent →
  lookup_node fs parent = Some Dir →
  fs !! (c :: parent) ≠ Some Dir →
  os.open_w env s fs = Ok (c :: parent) (<[c :: parent := File ""]> fs).
Proof.
  intros Hs Hp Hparent Hold. unfold os.open_w.
  destruct (String.eqb_spec s "") as [->|_]; [done|].
  rewrite Hp, Hparent. by destruct (fs !! (c :: parent)) as [[?|]|].
Qed.

(** [generate] makes sure the folder is there, opens the file and fills it
    with the stub text. *)
Lemma generate_eq (h : heap) (env : Env) (self : ModuleStubGenerator.t)
    (output_folder : string) (fs : FS) :
  ModuleStubGenerator.generate h env self output_folder fs
  = generate_steps h env self output_folder fs.
Proof.
  unfold ModuleStubGenerator.generate, generate_steps, ensure_dir.
  rewrite bind_assoc. apply bind_ext. intros found fs1.
  apply bind_ext. intros _ fs2. unfold bind at 1 3.
  destruct (os.open_w env _ fs2) as [f fs3|e fs3|] eqn:Hopen; [|done..].
  apply open_w_Ok_inv in Hopen as (_ & _ & -> & _ & _).
  unfold bind.
  erewrite write_file by apply lookup_insert_eq.
  rewrite append_nil_l, insert_insert_eq.
  erewrite member_loop by apply lookup_insert_eq.
  unfold store_stub, stub_text. rewrite !insert_insert_eq.
  by destruct (render_members _).
Qed.

(** ** The file system *)


Lemma lookup_node_insert (fs : FS) (p q : path) (n : node) :
  p ≠ [] →
  lookup_node (<[p := n]> fs) q = if decide (p = q) then Some n else lookup_node fs q.
Proof.
  intros Hp. destruct q as [|c q]; cbn.
  - by case_decide.
  - by rewrite lookup_insert.
Qed.

Lemma path_exists_eq (env : Env) (s : string) (fs : FS) :
  os.path_exists env s fs
  = Ok (if String.eqb s "" then false
        else bool_decide (is_Some (lookup_node fs (resolve env s)))) fs.
Proof. done. Qed.

Lemma suffix_cons_inv_r (q p : path) (c : string) :
  q `suffix_of` c :: p → q = c :: p ∨ q `suffix_of` p.
Proof.
  intros [k Hk]. destruct k as [|c' k]; cbn in Hk.
  - by left.
  - right. injection Hk as _ ->. by apply suffix_app_r.
Qed.

Lemma not_suffix_longer (c : string) (p : path) : ¬ (c :: p) `suffix_of` p.
Proof. apply suffix_cons_not. Qed.

(** In a well-formed file system everything above an existing entry is a
    directory. *)
Lemma wf_ancestors (fs : FS) (p q : path) :
  wf_fs fs → is_Some (lookup_node fs p) → q `suffix_of` p → q ≠ p →
  lookup_node fs q = Some Dir.
Proof.
  intros Hwf. revert q. induction p as [|c p IH]; intros q Hp Hq Hne.
  - apply suffix_nil_inv in Hq. by subst.
  - apply suffix_cons_inv_r in Hq as [->|Hq]; [done|].
    assert (lookup_node fs p = Some Dir) as Hparent by (apply (Hwf c); apply Hp).
    destruct (decide (q = p)) as [->|Hqp]; [done|].
    apply IH; [by rewrite Hparent| done..].
Qed.


Lemma wf_insert_dir (fs : FS) (c : string) (parent : path) :
  wf_fs fs → lookup_node fs parent = Some Dir →
  wf_fs (<[c :: parent := Dir]> fs).
Proof.
  intros Hwf Hparent c' p'. rewrite lookup_insert, lookup_node_insert by done.
  case_decide as Heq; [injection Heq as -> ->|]; intros Hsome.
  - case_decide; [done|]. done.
  - case_decide; [done|]. by apply (Hwf c').
Qed.


Lemma mkdir_Ok_inv (p : path) (fs fs' : FS) :
  os.mkdir p fs = Ok tt fs' →
  ∃ c parent, p = c :: parent ∧ lookup_node fs parent = Some Dir
              ∧ fs !! p = None ∧ fs' = <[p := Dir]> fs.
Proof.
  unfold os.mkdir. destruct p as [|c parent]; [done|].
  destruct (lookup_node fs parent) as [[?|]|] eqn:Hparent; try done.
  destruct (fs !! (c :: parent)) eqn:Hold; [done|].
  intros [= <-]. eauto 10.
Qed.


(** What a successful [makedirs] has done, in any file system: the target
    was missing and is now a directory, and the only other changes are
    missing ancestors that became directories. *)
Lemma makedirs_at_Ok_inv (p : path) :
  ∀ fs fs', os.makedirs_at p fs = Ok tt fs' →
    lookup_node fs p = None
    ∧ lookup_node fs' p = Some Dir
    ∧ ∀ q, lookup_node fs' q = lookup_node fs q
           ∨ (lookup_node fs q = None ∧ lookup_node fs' q = Some Dir
              ∧ q `suffix_of` p).
Proof.
  induction p as [|c parent IH]; intros fs fs' Hrun; [done|].
  cbn [os.makedirs_at] in Hrun.
  apply bind_Ok_inv in Hrun as ([] & fs1 & Hup & Hmk).
  apply mkdir_Ok_inv in Hmk as (? & ? & [= <- <-] & Hparent & Hnew & ->).
  case_bool_decide as Hex.
  - injection Hup as <-. split_and!; [done|by rewrite lookup_node_insert, decide_True|].
    intros q. rewrite lookup_node_insert by done. case_decide as Hq; [|by left].
    subst q. right. by split_and!.
  - apply IH in Hup as (Hnone & Hdir & Hframe).
    assert (fs !! (c :: parent) = None) as Hp.
    { destruct (Hframe (c :: parent)) as [Heq|(? & ? & Hsuf)].
      - cbn in Heq. congruence.
      - by apply not_suffix_longer in Hsuf. }
    split_and!; [done|by rewrite lookup_node_insert, decide_True|].
    intros q. rewrite lookup_node_insert by done. case_decide as Hq.
    + subst q. right. by split_and!.
    + destruct (Hframe q) as [Heq|(? & ? & Hsuf)]; [by left|].
      right. split_and!; [done..|by apply suffix_cons_r].
Qed.

(** In a well-formed file system a successful [makedirs] leaves a directory
    at the target and at everything above it, and met no regular file on
    the way. *)
Lemma makedirs_at_Ok_wf (p : path) :
  ∀ fs fs', wf_fs fs → os.makedirs_at p fs = Ok tt fs' →
    wf_fs fs'
    ∧ no_file_above fs p
    ∧ ∀ q, q `suffix_of` p → lookup_node fs' q = Some Dir.
Proof.
  induction p as [|c parent IH]; intros fs fs' Hwf Hrun; [done|].
  cbn [os.makedirs_at] in Hrun.
  apply bind_Ok_inv in Hrun as ([] & fs1 & Hup & Hmk).
  apply mkdir_Ok_inv in Hmk as (? & ? & [= <- <-] & Hparent & Hnew & ->).
  case_bool_decide as Hex.
  - injection Hup as <-.
    assert (∀ q, q `suffix_of` parent → lookup_node fs q = Some Dir) as Habove.
    { intros q Hq. destruct (decide (q = parent)) as [->|Hne]; [done|].
      by apply (wf_ancestors fs parent). }
    split_and!.
    + by apply wf_insert_dir.
    + intros q data [->|Hq]%suffix_cons_inv_r; [cbn; congruence|].
      by rewrite Habove.
    + intros q [->|Hq]%suffix_cons_inv_r; rewrite lookup_node_insert by done.
      * by rewrite decide_True.
      * case_decide; [done|by apply Habove].
  - destruct (IH _ _ Hwf Hup) as (Hwf1 & Hnofile & Habove).
    apply makedirs_at_Ok_inv in Hup as (_ & _ & Hframe).
    assert (fs !! (c :: parent) = None) as Hp.
    { destruct (Hframe (c :: parent)) as [Heq|(? & ? & Hsuf)].
      - cbn in Heq. congruence.
      - by apply not_suffix_longer in Hsuf. }
    split_and!.
    + by apply wf_insert_dir.
    + intros q data [->|Hq]%suffix_cons_inv_r; [cbn; congruence|].
      by apply Hnofile.
    + intros q [->|Hq]%suffix_cons_inv_r; rewrite lookup_node_insert by done.
      * by rewrite decide_True.
      * case_decide; [done|by apply Habove].
Qed.



Lemma ensure_dir_Ok_inv (env : Env) (s : string) (fs fs' : FS) :
  ensure_dir env s fs = Ok tt fs' →
  s ≠ ""
  ∧ ((is_Some (lookup_node fs (resolve env s)) ∧ fs' = fs)
     ∨ (lookup_node fs (resolve env s) = None
        ∧ os.makedirs_at (resolve env s) fs = Ok tt fs')).
Proof.
  unfold ensure_dir, bind. rewrite path_exists_eq. unfold os.makedirs.
  destruct (String.eqb_spec s "") as [->|Hs]; [done|].
  case_bool_decide as Hex; cbn.
  - intros [= <-]. split; [done|]. by left.
  - intros Hrun. split; [done|]. right. split; [|done].
    destruct (lookup_node fs (resolve env s)); [by destruct Hex|done].
Qed.

Lemma ensure_dir_present (env : Env) (s : string) (fs : FS) :
  s ≠ "" → is_Some (lookup_node fs (resolve env s)) →
  ensure_dir env s fs = Ok tt fs.
Proof.
  intros Hs Hex. unfold ensure_dir, bind. rewrite path_exists_eq.
  destruct (String.eqb_spec s "") as [->|_]; [done|].
  by rewrite bool_decide_eq_true_2.
Qed.


(** ** The renderer *)

Lemma generate_Ok_inv (h : heap) (env : Env) (self : ModuleStubGenerator.t)
    (output_folder : string) (fs fs' : FS) :
  ModuleStubGenerator.generate h env self output_folder fs = Ok tt fs' →
  ∃ fs1 c parent,
    ensure_dir env (ModuleStubGenerator.root_folder h self output_folder) fs
    = Ok tt fs1
    ∧ ModuleStubGenerator.output_file h self output_folder ≠ ""
    ∧ resolve env (ModuleStubGenerator.output_file h self output_folder)
      = c :: parent
    ∧ lookup_node fs1 parent = Some Dir
    ∧ fs1 !! (c :: parent) ≠ Some Dir
    ∧ (stub_text h self).2 = None
    ∧ fs' = <[c :: parent := File (stub_text h self).1]> fs1.
Proof.
  rewrite generate_eq. unfold generate_steps. intros Hrun.
  apply bind_Ok_inv in Hrun as ([] & fs1 & Hensure & Hrun).
  apply bind_Ok_inv in Hrun as (f & fs2 & Hopen & Hstore).
  apply open_w_Ok_inv in Hopen as (Hs & -> & -> & Hold & c & parent & Hf & Hparent).
  exists fs1, c, parent. rewrite Hf in *.
  unfold store_stub in Hstore. rewrite insert_insert_eq in Hstore.
  destruct (stub_text h self).2; [done|]. injection Hstore as <-.
  by split_and!.
Qed.

Lemma generate_Ok (h : heap) (env : Env) (self : ModuleStubGenerator.t)
    (output_folder : string) (fs fs1 : FS) (c : string) (parent : path) :
  ensure_dir env (ModuleStubGenerator.root_folder h self output_folder) fs
  = Ok tt fs1 →
  ModuleStubGenerator.output_file h self output_folder ≠ "" →
  resolve env (ModuleStubGenerator.output_file h self output_folder)
  = c :: parent →
  lookup_node fs1 parent = Some Dir →
  fs1 !! (c :: parent) ≠ Some Dir →
  (stub_text h self).2 = None →
  ModuleStubGenerator.generate h env self output_folder fs
  = Ok tt (<[c :: parent := File (stub_text h self).1]> fs1).
Proof.
  intros Hensure Hs Hf Hparent Hold Htext.
  rewrite generate_eq. unfold generate_steps.
  rewrite (bind_Ok _ _ _ _ _ Hensure).
  rewrite (bind_Ok _ _ _ _ _ (open_w_Ok _ _ _ _ _ Hs Hf Hparent Hold)).
  unfold store_stub. by rewrite Htext, insert_insert_eq.
Qed.

(** The text of a stub that was rendered without failure is one block per
    public member. *)
Lemma render_members_blocks (members : list (string * PyObject)) :
  (render_members members).2 = None →
  ∃ texts,
    Forall2 (λ nm text, declaration (classify nm.2) nm.1 nm.2 = inr text)
      (filter (λ nm, public nm) members) texts
    ∧ (render_members members).1 = concat_blocks texts.
Proof.
  induction members as [|[name member] members IH]; intros Hok.
  { exists []. by split; [constructor|]. }
  cbn [render_members] in *. rewrite filter_cons.
  case_decide as Hpublic; unfold public in Hpublic; cbn [fst] in Hpublic;
    destruct (PyStr.startswith name "__") eqn:Hdunder; try done.
  2: by apply IH.
  destruct (declaration (classify member) name member) as [e|text] eqn:Hdecl;
    [done|].
  destruct (render_members members) as [rest r]. cbn in *.
  destruct (IH Hok) as (texts & Hall & ->).
  exists (text :: texts). split; [by constructor|done].
Qed.

(** C3. In the file a completed [ModuleStubGenerator.generate] has written,
    the header is followed by exactly one block per member whose name does
    not start with two underscores, in member order, each block being the
    member's declaration and a blank line; members whose name starts with
    two underscores contribute nothing. *)
Theorem stub_has_one_block_per_public_member
    (h : heap) (env : Env) (self : ModuleStubGenerator.t)
    (output_folder : string) (fs fs' : FS) :
  ModuleStubGenerator.generate h env self output_folder fs = Ok tt fs' →
  ∃ texts,
    Forall2 (λ nm text, declaration (classify nm.2) nm.1 nm.2 = inr text)
      (filter (λ nm, public nm) (ModuleStubGenerator._members self)) texts
    ∧ fs' !! resolve env (ModuleStubGenerator.output_file h self output_folder)
      = Some (File (ModuleStubGenerator.header h self
                    +:+ foldr (λ text rest, text +:+ PyStr.nl +:+ PyStr.nl
                                            +:+ rest) "" texts)).
Proof.
  intros Hrun.
  apply generate_Ok_inv in Hrun
    as (fs1 & c & parent & _ & _ & -> & _ & _ & Htext & ->).
  unfold stub_text in *.
  destruct (render_members (ModuleStubGenerator._members self))
    as [body r] eqn:Hbody.
  cbn in Htext. subst r.
  destruct (render_members_blocks (ModuleStubGenerator._members self))
    as (texts & Hall & Hcat); [by rewrite Hbody|].
  rewrite Hbody in Hcat. cbn in Hcat. subst body.
  exists texts. split; [done|]. rewrite lookup_insert_eq. cbn.
  do 3 f_equal. clear. unfold concat_blocks.
  induction texts as [|t texts IH]; [done|].
  cbn [foldr]. rewrite IH. unfold block. by rewrite !append_assoc.
Qed.

(** C6. The output path is the output root joined with the dot-separated
    segments of the module's package name and the bare module name plus
    [.pyi], the bare name being the module's name without the package
    name and a dot in front.  A completed [generate] has created the
    folder of that path, recursively, when it was missing, before the file
    was opened, and the file then holds the stub. *)
Theorem stub_path_derived_and_folder_created
    (h : heap) (env : Env) (self : ModuleStubGenerator.t)
    (output_folder : string) (fs fs' : FS) :
  let m := h (ModuleStubGenerator._obj self) in
  let pkg := PyStr.str (__package__ m) in
  let file := ModuleStubGenerator.output_file h self output_folder in
  let folder := ModuleStubGenerator.root_folder h self output_folder in
  ModuleStubGenerator.generate h env self output_folder fs = Ok tt fs' →
  file = os_path.join output_folder
           (PyStr.split "." pkg
            ++ [PyStr.removeprefix (__name__ m) (pkg +:+ ".") +:+ ".pyi"])
  ∧ (∀ bare, __name__ m = pkg +:+ "." +:+ bare →
       file = os_path.join output_folder (PyStr.split "." pkg ++ [bare +:+ ".pyi"]))
  ∧ folder = os_path.dirname file
  ∧ ∃ fs1,
      (** the folder step, which writes no file *)
      ensure_dir env folder fs = Ok tt fs1
      ∧ (is_Some (lookup_node fs (resolve env folder)) → fs1 = fs)
      ∧ (lookup_node fs (resolve env folder) = None →
           os.makedirs_at (resolve env folder) fs = Ok tt fs1
           ∧ lookup_node fs1 (resolve env folder) = Some Dir
           ∧ lookup_node fs' (resolve env folder) = Some Dir
           ∧ (wf_fs fs → ∀ q, q `suffix_of` resolve env folder →
                lookup_node fs' q = Some Dir))
      ∧ (∀ p data, lookup_node fs1 p = Some (File data) →
                   lookup_node fs p = Some (File data))
      (** then the file *)
      ∧ fs' = <[resolve env file := File (stub_text h self).1]> fs1.
Proof.
  intros m pkg file folder Hrun.
  split; [done|]. split.
  { intros bare Hname. unfold file, ModuleStubGenerator.output_file,
      ModuleStubGenerator.module_name, ModuleStubGenerator.package.
    fold m pkg. rewrite Hname, <- append_assoc. by rewrite removeprefix_append. }
  split; [done|].
  apply generate_Ok_inv in Hrun
    as (fs1 & c & parent & Hensure & Hfile & Hf & Hparent & Hold & Htext & ->).
  fold file folder in Hensure, Hfile, Hf. rewrite Hf.
  exists fs1. split; [done|].
  apply ensure_dir_Ok_inv in Hensure as (Hfolder & Hcases).
  assert (∀ p data, lookup_node fs1 p = Some (File data) →
                    lookup_node fs p = Some (File data)) as Hnofile.
  { intros p data Hp. destruct Hcases as [[_ ->]|[_ Hmk]]; [done|].
    apply makedirs_at_Ok_inv in Hmk as (_ & _ & Hframe).
    destruct (Hframe p) as [Heq|(_ & Hd & _)]; congruence. }
  split_and!; [| |done|done].
  - intros Hex. destruct Hcases as [[_ ->]|[Hnone _]]; [done|].
    rewrite Hnone in Hex. by destruct Hex.
  - intros Hnone. destruct Hcases as [[Hex _]|[_ Hmk]].
    { rewrite Hnone in Hex. by destruct Hex. }
    pose proof (makedirs_at_Ok_inv _ _ _ Hmk) as (_ & Hdir & _).
    assert (∀ q, lookup_node fs1 q = Some Dir →
              lookup_node (<[c :: parent := File (stub_text h self).1]> fs1) q
              = Some Dir) as Hkeep.
    { intros q Hq. rewrite lookup_node_insert by done.
      case_decide as Heq; [|done]. subst q. cbn in Hq. congruence. }
    split_and!; [done|done|by apply Hkeep|].
    intros Hwf q Hq. apply Hkeep.
    by apply (makedirs_at_Ok_wf _ _ _ Hwf Hmk).
Qed.

(** ** The walker *)

Section walker.
Context (h : heap) (env : Env) (output_folder : string).

Local Abbreviation visit fuel := (visit_child h env output_folder fuel).

Lemma render_all_app (ls1 ls2 : list nat) (fs : FS) :
  render_all h env output_folder (ls1 ++ ls2) fs
  = (render_all h env output_folder ls1 ;; render_all h env output_folder ls2) fs.
Proof. apply for_each_app. Qed.

Lemma mapM_cons_Some {A B} (f : A → option B) (x : A) (l : list A) (k : list B) :
  mapM f (x :: l) = Some k
  ↔ ∃ y k', f x = Some y ∧ mapM f l = Some k' ∧ k = y :: k'.
Proof.
  cbn. destruct (f x) as [y|]; cbn.
  2: { split; [done|]. by intros (? & ? & ? & ?). }
  destruct (mapM f l) as [k'|]; cbn; split.
  - intros [= <-]. eauto.
  - by intros (? & ? & [= <-] & [= <-] & ->).
  - done.
  - by intros (? & ? & ? & ? & ?).
Qed.

Lemma child_leaves_Some (rec : nat → option string → option (list nat))
    (modinfo : ModuleInfo) (ls : list nat) :
  child_leaves h env rec modinfo = Some ls
  ↔ ∃ loaded, import_module env (mi_name modinfo) = inr loaded
      ∧ if mi_ispkg modinfo
        then rec loaded (Some (PyStr.str (__package__ (h loaded)))) = Some ls
        else ls = [loaded].
Proof.
  unfold child_leaves.
  destruct (import_module env (mi_name modinfo)) as [e|loaded]; [naive_solver|].
  destruct (mi_ispkg modinfo); naive_solver.
Qed.

Lemma walk_children_Ok (fuel : nat) (items : list ModuleInfo) :
  (∀ module pk fs fs',
     StubGenerator._generate_stubs h env fuel module output_folder pk fs
     = Ok tt fs'
     ↔ ∃ ls, leaf_modules h env fuel module pk = Some ls
             ∧ render_all h env output_folder ls fs = Ok tt fs') →
  ∀ fs fs',
    for_each items (visit fuel) fs = Ok tt fs'
    ↔ ∃ lss, mapM (child_leaves h env (leaf_modules h env fuel)) items = Some lss
             ∧ render_all h env output_folder (concat lss) fs = Ok tt fs'.
Proof.
  intros IH. induction items as [|modinfo items IHitems]; intros fs fs'.
  { cbn. split.
    - intros [= <-]. by exists [].
    - by intros (lss & [= <-] & Hrun). }
  cbn [for_each]. unfold visit_child at 1. split.
  - intros Hrun. apply bind_Ok_inv in Hrun as ([] & fs1 & Hvisit & Hrest).
    apply bind_Ok_inv in Hvisit as (loaded & fs0 & Himport & Hvisit).
    destruct (import_module env (mi_name modinfo)) as [e|loaded'] eqn:Himp;
      [done|]. injection Himport as <- <-.
    apply IHitems in Hrest as (lss & HmapM & Hrest).
    destruct (mi_ispkg modinfo) eqn:Hispkg.
    + apply IH in Hvisit as (ls1 & Hls1 & Hrun1).
      exists (ls1 :: lss). split.
      * apply mapM_cons_Some. exists ls1, lss. split_and!; [|done..].
        apply child_leaves_Some. exists loaded'. by rewrite Hispkg.
      * cbn [concat]. rewrite render_all_app. by rewrite (bind_Ok _ _ _ _ _ Hrun1).
    + exists ([loaded'] :: lss). split.
      * apply mapM_cons_Some. exists [loaded'], lss. split_and!; [|done..].
        apply child_leaves_Some. exists loaded'. by rewrite Hispkg.
      * cbn [concat]. rewrite render_all_app.
        unfold render_all at 1. cbn [for_each].
        rewrite bind_assoc. rewrite (bind_Ok _ _ _ _ _ Hvisit). done.
  - intros (lss & HmapM & Hrun).
    apply mapM_cons_Some in HmapM as (ls1 & lss' & Hchild & HmapM & ->).
    apply child_leaves_Some in Hchild as (loaded & Himp & Hchild).
    rewrite Himp. cbn [lift]. unfold bind at 1 2. cbn [ret].
    cbn [concat] in Hrun. rewrite render_all_app in Hrun.
    apply bind_Ok_inv in Hrun as ([] & fs1 & Hrun1 & Hrest).
    destruct (mi_ispkg modinfo).
    + assert (StubGenerator._generate_stubs h env fuel loaded output_folder
                (Some (PyStr.str (__package__ (h loaded)))) fs = Ok tt fs1)
        as -> by (apply IH; eauto).
      apply IHitems. eauto.
    + subst ls1. unfold render_all in Hrun1. cbn [for_each] in Hrun1.
      apply bind_Ok_inv in Hrun1 as ([] & fs2 & -> & [= <-]).
      apply IHitems. eauto.
Qed.

(** A completed walk has rendered its leaf modules, one after the other, and
    done nothing else to the file system. *)
Lemma _generate_stubs_Ok (fuel : nat) :
  ∀ module pk fs fs',
    StubGenerator._generate_stubs h env fuel module output_folder pk fs
    = Ok tt fs'
    ↔ ∃ ls, leaf_modules h env fuel module pk = Some ls
            ∧ render_all h env output_folder ls fs = Ok tt fs'.
Proof.
  induction fuel as [|fuel IH]; intros module pk fs fs'.
  { cbn. split; [done|]. by intros (? & ? & ?). }
  cbn [StubGenerator._generate_stubs leaf_modules].
  destruct (__path__ (h module)) as [search_path|]; cbn [from_option lift].
  2: { cbn. split; [done|]. by intros (? & ? & ?). }
  unfold bind at 1. cbn [ret].
  rewrite (walk_children_Ok fuel _ IH). cbn. split.
  - intros (lss & -> & Hrun). eauto.
  - intros (ls & Hls & Hrun).
    destruct (mapM _ _) as [lss|]; [|done]. injection Hls as <-. eauto.
Qed.

End walker.

(** ** Flushing *)

Lemma rmtree_Ok_inv (env : Env) (s : string) (fs fs' : FS) :
  os.rmtree env s fs = Ok tt fs' →
  s ≠ ""
  ∧ fs !! resolve env s = Some Dir
  ∧ fs' = filter (λ kv, ¬ resolve env s `suffix_of` kv.1) fs
  ∧ (∀ p, resolve env s `suffix_of` p → lookup_node fs' p = None)
  ∧ (∀ p, ¬ resolve env s `suffix_of` p → lookup_node fs' p = lookup_node fs p).
Proof.
  unfold os.rmtree. destruct (String.eqb_spec s "") as [->|Hs]; [done|].
  destruct (resolve env s) as [|c d] eqn:Hd; [done|].
  destruct (fs !! (c :: d)) as [[?|]|] eqn:Hold; try done.
  intros [= <-]. split_and!; [done..| |].
  - intros p Hp. destruct p as [|c' p]; [by apply suffix_nil_inv in Hp|].
    cbn. apply map_lookup_filter_None_2. right. intros n _ Hnot. by apply Hnot.
  - intros p Hp. destruct p as [|c' p]; [done|]. cbn.
    apply option_eq. intros n. rewrite map_lookup_filter_Some. cbn. naive_solver.
Qed.

(** One run of the renderer changes an entry in one of two ways only: a
    missing entry becomes a directory, or the entry becomes the stub. *)
Lemma generate_frame (h : heap) (env : Env) (self : ModuleStubGenerator.t)
    (output_folder : string) (fs fs' : FS) (p : path) :
  ModuleStubGenerator.generate h env self output_folder fs = Ok tt fs' →
  lookup_node fs' p = lookup_node fs p
  ∨ (lookup_node fs p = None ∧ lookup_node fs' p = Some Dir)
  ∨ (p = resolve env (ModuleStubGenerator.output_file h self output_folder)
     ∧ lookup_node fs' p = Some (File (stub_text h self).1)).
Proof.
  intros Hrun. apply generate_Ok_inv in Hrun
    as (fs1 & c & parent & Hensure & _ & -> & _ & _ & _ & ->).
  rewrite lookup_node_insert by done. case_decide as Hp; [by right; right|].
  apply ensure_dir_Ok_inv in Hensure as (_ & [[_ ->]|[_ Hmk]]); [by left|].
  apply makedirs_at_Ok_inv in Hmk as (_ & _ & Hframe).
  destruct (Hframe p) as [Heq|(? & ? & _)]; [by left|by right; left].
Qed.

Lemma render_all_frame (h : heap) (env : Env) (output_folder : string)
    (ls : list nat) :
  ∀ (fs fs' : FS) (p : path),
    render_all h env output_folder ls fs = Ok tt fs' →
    lookup_node fs' p = lookup_node fs p
    ∨ (lookup_node fs p = None ∧ lookup_node fs' p = Some Dir)
    ∨ ∃ l, l ∈ ls
        ∧ p = resolve env (ModuleStubGenerator.output_file h
                             (ModuleStubGenerator.__init__ h l) output_folder)
        ∧ lookup_node fs' p
          = Some (File (stub_text h (ModuleStubGenerator.__init__ h l)).1).
Proof.
  induction ls as [|l ls IH]; intros fs fs' p Hrun.
  { injection Hrun as <-. by left. }
  unfold render_all in Hrun. cbn [for_each] in Hrun.
  apply bind_Ok_inv in Hrun as ([] & fs1 & Hfirst & Hrest).
  apply (generate_frame _ _ _ _ _ _ p) in Hfirst.
  destruct (IH _ _ p Hrest) as [Heq|[[Hnone Hdir]|(l' & Hin & Hp & Hfile)]].
  - rewrite Heq. destruct Hfirst as [?|[?|[? ?]]]; [by left|by right; left|].
    right; right. exists l. split_and!; [by left|done..].
  - destruct Hfirst as [Heq|[[_ Heq]|[_ Heq]]]; [|congruence..].
    right; left. by rewrite <- Heq.
  - right; right. exists l'. split_and!; [by right|done..].
Qed.

(** C9. With the flush flag set and no output directory to be found, the
    flush step does nothing and raises nothing: the run is the walk, started
    on the file system as it was, just as with the flag unset. *)
Theorem flush_of_missing_output_is_a_noop
    (h : heap) (env : Env) (fuel : nat) (self : StubGenerator.t)
    (output_folder : string) (fs : FS) :
  os.path_exists env output_folder fs = Ok false fs →
  StubGenerator.generate h env fuel self output_folder true fs
  = StubGenerator._generate_stubs h env fuel (StubGenerator.module self)
      output_folder None fs
  ∧ StubGenerator.generate h env fuel self output_folder true fs
    = StubGenerator.generate h env fuel self output_folder false fs.
Proof.
  intros Hmissing. unfold StubGenerator.generate.
  by rewrite (bind_Ok _ _ _ _ _ Hmissing).
Qed.

(** C4. With the flush flag set and the output directory there, the run
    first removes the directory with everything below it, whatever it is,
    and leaves the rest of the file system alone; the walk starts from that
    state.  After a completed run every entry at or below the output
    directory is a directory the run made or the stub of a leaf module of
    this run. *)
Theorem flush_removes_old_output_before_generation
    (h : heap) (env : Env) (fuel : nat) (self : StubGenerator.t)
    (output_folder : string) (fs fs' : FS) :
  os.path_exists env output_folder fs = Ok true fs →
  StubGenerator.generate h env fuel self output_folder true fs = Ok tt fs' →
  ∃ fs0 ls,
    os.rmtree env output_folder fs = Ok tt fs0
    ∧ (∀ p, resolve env output_folder `suffix_of` p → lookup_node fs0 p = None)
    ∧ (∀ p, ¬ resolve env output_folder `suffix_of` p →
         lookup_node fs0 p = lookup_node fs p)
    ∧ StubGenerator._generate_stubs h env fuel (StubGenerator.module self)
        output_folder None fs0 = Ok tt fs'
    ∧ leaf_modules h env fuel (StubGenerator.module self) None = Some ls
    ∧ ∀ p, resolve env output_folder `suffix_of` p →
        lookup_node fs' p = None
        ∨ lookup_node fs' p = Some Dir
        ∨ ∃ l, l ∈ ls
            ∧ p = resolve env (ModuleStubGenerator.output_file h
                                 (ModuleStubGenerator.__init__ h l) output_folder)
            ∧ lookup_node fs' p
              = Some (File (stub_text h (ModuleStubGenerator.__init__ h l)).1).
Proof.
  intros Hthere Hrun. unfold StubGenerator.generate in Hrun.
  rewrite (bind_Ok _ _ _ _ _ Hthere) in Hrun.
  apply bind_Ok_inv in Hrun as ([] & fs0 & Hflush & Hwalk).
  pose proof (rmtree_Ok_inv _ _ _ _ Hflush) as (_ & _ & _ & Hgone & Hkept).
  pose proof Hwalk as Hwalk'.
  apply _generate_stubs_Ok in Hwalk' as (ls & Hls & Hrender).
  exists fs0, ls. split_and!; [done..|].
  intros p Hp.
  destruct (render_all_frame _ _ _ _ _ _ p Hrender) as [Heq|[[_ ?]|?]].
  - left. rewrite Heq. by apply Hgone.
  - by right; left.
  - by right; right.
Qed.

(** ** What a completed walk has visited *)

Lemma str_of_Some (s : string) : PyStr.str (Some s) = s.
Proof. done. Qed.

Lemma leaf_modules_root (h : heap) (env : Env) (fuel : nat) (root : nat) :
  leaf_modules h env fuel root None
  = leaf_modules h env fuel root (Some (PyStr.str (__package__ (h root)))).
Proof. by destruct fuel. Qed.

Lemma leaf_modules_Some_inv (h : heap) (env : Env) (fuel : nat) (module : nat)
    (prefix : string) (ls : list nat) :
  leaf_modules h env fuel module (Some prefix) = Some ls →
  ∃ fuel' search_path lss,
    fuel = S fuel'
    ∧ __path__ (h module) = Some search_path
    ∧ Forall2 (λ modinfo ls', child_leaves h env (leaf_modules h env fuel')
                                 modinfo = Some ls')
        (iter_modules env search_path (prefix +:+ ".")) lss
    ∧ ls = concat lss.
Proof.
  destruct fuel as [|fuel']; [done|]. cbn [leaf_modules].
  destruct (__path__ (h module)) as [search_path|]; [|done]. cbn.
  destruct (mapM _ _) as [lss|] eqn:HmapM; [|done]. intros [= <-].
  apply mapM_Some_1 in HmapM. eauto 10.
Qed.

Lemma elem_of_concat (l : nat) (lss : list (list nat)) :
  l ∈ concat lss ↔ ∃ ls, ls ∈ lss ∧ l ∈ ls.
Proof.
  rewrite list_elem_of_In, in_concat. split.
  - intros (ls & ? & ?). exists ls. by rewrite !list_elem_of_In.
  - intros (ls & ? & ?). exists ls. by rewrite <- !list_elem_of_In.
Qed.

Section visited.
Context (h : heap) (env : Env) (root : nat).
Hypothesis package_named :
  ∀ l search_path,
    __path__ (h l) = Some search_path → __package__ (h l) = Some (__name__ (h l)).

(** Every package the walk enters was walked to the end, and its leaves are
    among the leaves of the whole walk. *)
Lemma walked_completed (fuel : nat) (ls : list nat) :
  leaf_modules h env fuel root None = Some ls →
  ∀ pkg prefix, walked h env root pkg prefix →
    ∃ fuel' ls', leaf_modules h env fuel' pkg (Some prefix) = Some ls'
                 ∧ ls' ⊆ ls.
Proof.
  intros Hls pkg prefix Hwalked.
  induction Hwalked
    as [|pkg prefix search_path modinfo loaded _ IH Hpath Hin Hispkg Himp].
  { exists fuel, ls. by rewrite <- leaf_modules_root. }
  destruct IH as (fuel1 & ls1 & Hls1 & Hsub).
  apply leaf_modules_Some_inv in Hls1
    as (fuel' & search_path' & lss & -> & Hpath' & Hall & ->).
  rewrite Hpath in Hpath'. injection Hpath' as <-.
  apply list_elem_of_lookup in Hin as [i Hi].
  destruct (Forall2_lookup_l _ _ _ _ _ Hall Hi) as (ls' & Hi' & Hchild).
  apply child_leaves_Some in Hchild as (loaded' & Himp' & Hchild).
  rewrite Himp in Himp'. injection Himp' as <-. rewrite Hispkg in Hchild.
  pose proof Hchild as Hchild'.
  apply leaf_modules_Some_inv in Hchild' as (? & sp & _ & _ & Hsp & _ & _).
  rewrite (package_named _ _ Hsp), str_of_Some in Hchild.
  exists fuel', ls'. split; [done|].
  intros l Hl. apply Hsub, elem_of_concat. exists ls'. split; [|done].
  apply list_elem_of_lookup. eauto.
Qed.

(** In a completed walk every child of an entered package was imported;
    the packages among them were entered, the others are leaves. *)
Lemma walked_children_imported (fuel : nat) (ls : list nat) :
  leaf_modules h env fuel root None = Some ls →
  ∀ pkg prefix, walked h env root pkg prefix →
    ∃ search_path,
      __path__ (h pkg) = Some search_path
      ∧ ∀ modinfo, modinfo ∈ iter_modules env search_path (prefix +:+ ".") →
          ∃ loaded,
            import_module env (mi_name modinfo) = inr loaded
            ∧ if mi_ispkg modinfo
              then walked h env root loaded (__name__ (h loaded))
              else loaded ∈ ls.
Proof.
  intros Hls pkg prefix Hwalked.
  destruct (walked_completed _ _ Hls _ _ Hwalked) as (fuel1 & ls1 & Hls1 & Hsub).
  apply leaf_modules_Some_inv in Hls1
    as (fuel' & search_path & lss & -> & Hpath & Hall & ->).
  exists search_path. split; [done|]. intros modinfo Hin.
  pose proof Hin as Hin'.
  apply list_elem_of_lookup in Hin' as [i Hi].
  destruct (Forall2_lookup_l _ _ _ _ _ Hall Hi) as (ls' & Hi' & Hchild).
  apply child_leaves_Some in Hchild as (loaded & Himp & Hchild).
  exists loaded. split; [done|].
  destruct (mi_ispkg modinfo) eqn:Hispkg.
  - by eapply walked_sub.
  - subst ls'. apply Hsub, elem_of_concat. exists [loaded].
    split; [|by left]. apply list_elem_of_lookup. eauto.
Qed.

(** Every leaf of the walk is a child, not flagged as a package, of a
    package the walk entered. *)
Lemma leaf_is_child_of_walked (fuel : nat) :
  ∀ pkg prefix ls,
    walked h env root pkg prefix →
    leaf_modules h env fuel pkg (Some prefix) = Some ls →
    ∀ l, l ∈ ls →
      ∃ pkg' prefix' search_path modinfo,
        walked h env root pkg' prefix'
        ∧ __path__ (h pkg') = Some search_path
        ∧ modinfo ∈ iter_modules env search_path (prefix' +:+ ".")
        ∧ mi_ispkg modinfo = false
        ∧ import_module env (mi_name modinfo) = inr l.
Proof.
  induction fuel as [|fuel IH]; intros pkg prefix ls Hwalked Hls l Hl; [done|].
  apply leaf_modules_Some_inv in Hls
    as (fuel' & search_path & lss & [= <-] & Hpath & Hall & ->).
  apply elem_of_concat in Hl as (ls' & Hin & Hl).
  apply list_elem_of_lookup in Hin as [i Hi].
  destruct (Forall2_lookup_r _ _ _ _ _ Hall Hi) as (modinfo & Hi' & Hchild).
  assert (modinfo ∈ iter_modules env search_path (prefix +:+ ".")) as Hmodinfo
    by (apply list_elem_of_lookup; eauto).
  apply child_leaves_Some in Hchild as (loaded & Himp & Hchild).
  destruct (mi_ispkg modinfo) eqn:Hispkg.
  - pose proof Hchild as Hchild'.
    apply leaf_modules_Some_inv in Hchild' as (? & sp & _ & _ & Hsp & _ & _).
    rewrite (package_named _ _ Hsp), str_of_Some in Hchild.
    eapply (IH loaded); [|done..]. by eapply walked_sub.
  - subst ls'. apply list_elem_of_singleton in Hl as ->.
    exists pkg, prefix, search_path, modinfo. by split_and!.
Qed.

End visited.

Lemma render_all_keeps_file (h : heap) (env : Env) (output_folder : string)
    (ls : list nat) (fs fs' : FS) (p : path) (data : string) :
  render_all h env output_folder ls fs = Ok tt fs' →
  lookup_node fs p = Some (File data) →
  ∃ data', lookup_node fs' p = Some (File data').
Proof.
  intros Hrun Hp.
  destruct (render_all_frame _ _ _ _ _ _ p Hrun)
    as [Heq|[[Hnone _]|(l & _ & _ & Hfile)]]; [|congruence|by eauto].
  rewrite Heq. eauto.
Qed.

(** After a completed sequence of renderings each module of the sequence has
    a file at its output path. *)
Lemma render_all_files (h : heap) (env : Env) (output_folder : string)
    (ls : list nat) :
  ∀ fs fs', render_all h env output_folder ls fs = Ok tt fs' →
    ∀ l, l ∈ ls →
      ∃ data,
        lookup_node fs'
          (resolve env (ModuleStubGenerator.output_file h
                          (ModuleStubGenerator.__init__ h l) output_folder))
        = Some (File data).
Proof.
  induction ls as [|l0 ls IH]; intros fs fs' Hrun l Hl; [by apply elem_of_nil in Hl|].
  unfold render_all in Hrun. cbn [for_each] in Hrun.
  apply bind_Ok_inv in Hrun as ([] & fs1 & Hfirst & Hrest).
  apply elem_of_cons in Hl as [->|Hl]; [|by eapply IH].
  apply generate_Ok_inv in Hfirst
    as (fs0 & c & parent & _ & _ & Hf & _ & _ & _ & ->).
  eapply render_all_keeps_file; [done|].
  rewrite Hf. cbn. by rewrite lookup_insert_eq.
Qed.

(** C8. In a completed run every child found in the search path of a package
    the walk entered has been imported.  A child flagged as a package is
    entered in turn, its own dotted name being the prefix for its children,
    and is not rendered; the modules rendered are exactly the children not
    flagged as packages, each rendered once where the walk meets it, and
    each has its file at the end.  (Package objects carry their own name as
    [__package__], as the import system sets it.) *)
Theorem walk_imports_children_and_renders_each_leaf
    (h : heap) (env : Env) (fuel : nat) (self : StubGenerator.t)
    (output_folder : string) (flush_old : bool) (fs fs' : FS) :
  (∀ l search_path,
     __path__ (h l) = Some search_path →
     __package__ (h l) = Some (__name__ (h l))) →
  StubGenerator.generate h env fuel self output_folder flush_old fs = Ok tt fs' →
  ∃ ls fs0,
    leaf_modules h env fuel (StubGenerator.module self) None = Some ls
    (** every child of an entered package is imported; packages are
        entered, the others are leaves *)
    ∧ (∀ pkg prefix, walked h env (StubGenerator.module self) pkg prefix →
         ∃ search_path,
           __path__ (h pkg) = Some search_path
           ∧ ∀ modinfo,
               modinfo ∈ iter_modules env search_path (prefix +:+ ".") →
               ∃ loaded,
                 import_module env (mi_name modinfo) = inr loaded
                 ∧ if mi_ispkg modinfo
                   then walked h env (StubGenerator.module self) loaded
                          (__name__ (h loaded))
                   else loaded ∈ ls)
    (** only such leaves are rendered *)
    ∧ (∀ l, l ∈ ls →
         ∃ pkg prefix search_path modinfo,
           walked h env (StubGenerator.module self) pkg prefix
           ∧ __path__ (h pkg) = Some search_path
           ∧ modinfo ∈ iter_modules env search_path (prefix +:+ ".")
           ∧ mi_ispkg modinfo = false
           ∧ import_module env (mi_name modinfo) = inr l)
    (** the run renders the leaves one by one, after the flush step *)
    ∧ flush_step env output_folder flush_old fs = Ok tt fs0
    ∧ render_all h env output_folder ls fs0 = Ok tt fs'
    (** and each leaf has its file *)
    ∧ ∀ l, l ∈ ls →
        ∃ data,
          lookup_node fs'
            (resolve env (ModuleStubGenerator.output_file h
                            (ModuleStubGenerator.__init__ h l) output_folder))
          = Some (File data).
Proof.
  intros Hpkg Hrun. unfold StubGenerator.generate in Hrun.
  rewrite <- bind_assoc in Hrun.
  apply bind_Ok_inv in Hrun as ([] & fs0 & Hflush & Hwalk).
  apply _generate_stubs_Ok in Hwalk as (ls & Hls & Hrender).
  exists ls, fs0. split_and!; [done| | |done|done|].
  - by eapply walked_children_imported.
  - intros l Hl. rewrite leaf_modules_root in Hls.
    eapply leaf_is_child_of_walked; [done|apply walked_root|done..].
  - by eapply render_all_files.
Qed.

(** ** Failures *)

Lemma render_members_first_failure (done_ rest : list (string * PyObject))
    (name : string) (member : PyObject) (e : exn) :
  (render_members done_).2 = None →
  PyStr.startswith name "__" = false →
  declaration (classify member) name member = inl e →
  render_members (done_ ++ (name, member) :: rest)
  = ((render_members done_).1, Some e).
Proof.
  intros Hdone Hpublic Hdecl.
  induction done_ as [|[name0 member0] done_ IH]; cbn [app render_members].
  { by rewrite Hpublic, Hdecl. }
  cbn [render_members] in Hdone.
  destruct (PyStr.startswith name0 "__"); [by apply IH|].
  destruct (declaration (classify member0) name0 member0) as [?|text]; [done|].
  destruct (render_members done_) as [body r]. cbn in Hdone. subst r.
  by rewrite IH.
Qed.


Lemma _generate_stubs_unfold (h : heap) (env : Env) (fuel : nat) (module : nat)
    (output_folder : string) (pk : option string) (search_path : list string)
    (fs : FS) :
  __path__ (h module) = Some search_path →
  StubGenerator._generate_stubs h env (S fuel) module output_folder pk fs
  = for_each
      (iter_modules env search_path
         (PyStr.str (match pk with
                     | None => __package__ (h module)
                     | Some p => Some p
                     end) +:+ "."))
      (visit_child h env output_folder fuel) fs.
Proof. cbn [StubGenerator._generate_stubs]. by intros ->. Qed.

(** C7. Nothing is caught.  In the renderer a failure of [os.makedirs], of
    [open], or of the introspection of a member ends [generate] with that
    exception and the file system as the failure left it (the stub holds the
    members written so far, the later ones are not written).  In the walker
    a missing [__path__], a failed import, a failure inside a subpackage and
    a failure of the renderer each end [_generate_stubs] with that exception,
    the children after the failing one not being visited.  A failure of
    [shutil.rmtree] or of the walk ends [StubGenerator.generate]. *)
Theorem failures_propagate_unhandled (h : heap) (env : Env) :
  (** the renderer: [os.makedirs] *)
  (∀ self output_folder fs e fs1,
     os.path_exists env (ModuleStubGenerator.root_folder h self output_folder) fs
     = Ok false fs →
     os.makedirs env (ModuleStubGenerator.root_folder h self output_folder) fs
     = Raise e fs1 →
     ModuleStubGenerator.generate h env self output_folder fs = Raise e fs1)
  (** [open] *)
  ∧ (∀ self output_folder fs fs1 e fs2,
       ensure_dir env (ModuleStubGenerator.root_folder h self output_folder) fs
       = Ok tt fs1 →
       os.open_w env (ModuleStubGenerator.output_file h self output_folder) fs1
       = Raise e fs2 →
       ModuleStubGenerator.generate h env self output_folder fs = Raise e fs2)
  (** [inspect.signature] or [member.__name__] *)
  ∧ (∀ self output_folder fs fs1 f fs2 done_ name member rest e,
       ensure_dir env (ModuleStubGenerator.root_folder h self output_folder) fs
       = Ok tt fs1 →
       os.open_w env (ModuleStubGenerator.output_file h self output_folder) fs1
       = Ok f fs2 →
       ModuleStubGenerator._members self = done_ ++ (name, member) :: rest →
       (render_members done_).2 = None →
       PyStr.startswith name "__" = false →
       declaration (classify member) name member = inl e →
       ModuleStubGenerator.generate h env self output_folder fs
       = Raise e (<[f := File (ModuleStubGenerator.header h self
                               +:+ (render_members done_).1)]> fs2))
  (** the walker: [module.__path__] *)
  ∧ (∀ fuel module output_folder pk fs,
       __path__ (h module) = None →
       StubGenerator._generate_stubs h env (S fuel) module output_folder pk fs
       = Raise (AttributeError "__path__") fs)
  (** [importlib.import_module] *)
  ∧ (∀ fuel output_folder modinfo fs e,
       import_module env (mi_name modinfo) = inl e →
       visit_child h env output_folder fuel modinfo fs = Raise e fs)
  (** the recursive call *)
  ∧ (∀ fuel output_folder modinfo loaded fs e fs1,
       import_module env (mi_name modinfo) = inr loaded →
       mi_ispkg modinfo = true →
       StubGenerator._generate_stubs h env fuel loaded output_folder
         (Some (PyStr.str (__package__ (h loaded)))) fs = Raise e fs1 →
       visit_child h env output_folder fuel modinfo fs = Raise e fs1)
  (** the renderer, called on a leaf *)
  ∧ (∀ fuel output_folder modinfo loaded fs e fs1,
       import_module env (mi_name modinfo) = inr loaded →
       mi_ispkg modinfo = false →
       ModuleStubGenerator.generate h env (ModuleStubGenerator.__init__ h loaded)
         output_folder fs = Raise e fs1 →
       visit_child h env output_folder fuel modinfo fs = Raise e fs1)
  (** the loop over the children stops at the first failure *)
  ∧ (∀ fuel module output_folder pk search_path done_ modinfo rest fs fs1 e fs2,
       __path__ (h module) = Some search_path →
       iter_modules env search_path
         (PyStr.str (match pk with
                     | None => __package__ (h module)
                     | Some p => Some p
                     end) +:+ ".")
       = done_ ++ modinfo :: rest →
       for_each done_ (visit_child h env output_folder fuel) fs = Ok tt fs1 →
       visit_child h env output_folder fuel modinfo fs1 = Raise e fs2 →
       StubGenerator._generate_stubs h env (S fuel) module output_folder pk fs
       = Raise e fs2)
  (** [StubGenerator.generate]: [shutil.rmtree] *)
  ∧ (∀ fuel self output_folder fs e fs1,
       os.path_exists env output_folder fs = Ok true fs →
       os.rmtree env output_folder fs = Raise e fs1 →
       StubGenerator.generate h env fuel self output_folder true fs
       = Raise e fs1)
  (** and the walk *)
  ∧ (∀ fuel self output_folder flush_old fs fs0 e fs1,
       flush_step env output_folder flush_old fs = Ok tt fs0 →
       StubGenerator._generate_stubs h env fuel (StubGenerator.module self)
         output_folder None fs0 = Raise e fs1 →
       StubGenerator.generate h env fuel self output_folder flush_old fs
       = Raise e fs1).
Proof.
  split_and!.
  - intros self output_folder fs e fs1 Hmissing Hmk.
    unfold ModuleStubGenerator.generate.
    rewrite (bind_Ok _ _ _ _ _ Hmissing). cbn [negb].
    by rewrite (bind_Raise _ _ _ _ _ Hmk).
  - intros self output_folder fs fs1 e fs2 Hensure Hopen.
    rewrite generate_eq. unfold generate_steps.
    rewrite (bind_Ok _ _ _ _ _ Hensure).
    by rewrite (bind_Raise _ _ _ _ _ Hopen).
  - intros self output_folder fs fs1 f fs2 done_ name member rest e
      Hensure Hopen Hmembers Hdone Hpublic Hdecl.
    rewrite generate_eq. unfold generate_steps.
    rewrite (bind_Ok _ _ _ _ _ Hensure), (bind_Ok _ _ _ _ _ Hopen).
    unfold store_stub, stub_text. rewrite Hmembers.
    by rewrite (render_members_first_failure _ _ _ _ _ Hdone Hpublic Hdecl).
  - intros fuel module output_folder pk fs Hpath.
    cbn [StubGenerator._generate_stubs]. by rewrite Hpath.
  - intros fuel output_folder modinfo fs e Himp.
    unfold visit_child. by rewrite Himp.
  - intros fuel output_folder modinfo loaded fs e fs1 Himp Hispkg Hrec.
    unfold visit_child. rewrite Himp, Hispkg. cbn [lift].
    unfold bind, ret. by rewrite Hrec.
  - intros fuel output_folder modinfo loaded fs e fs1 Himp Hispkg Hgen.
    unfold visit_child. rewrite Himp, Hispkg. cbn [lift].
    unfold bind, ret. by rewrite Hgen.
  - intros fuel module output_folder pk search_path done_ modinfo rest
      fs fs1 e fs2 Hpath Hitems Hdone Hvisit.
    rewrite (_generate_stubs_unfold _ _ _ _ _ _ _ _ Hpath), Hitems.
    by apply (for_each_Raise _ _ _ _ _ fs1).
  - intros fuel self output_folder fs e fs1 Hthere Hflush.
    unfold StubGenerator.generate.
    rewrite (bind_Ok _ _ _ _ _ Hthere). by rewrite (bind_Raise _ _ _ _ _ Hflush).
  - intros fuel self output_folder flush_old fs fs0 e fs1 Hflush Hwalk.
    unfold StubGenerator.generate. rewrite <- bind_assoc.
    by rewrite (bind_Ok _ _ _ _ _ Hflush).
Qed.

(** ** The member snapshot *)

(** C10, as amended.  The generator keeps the member list it took when it
    was built, but reads the module's name and package name from the module
    at each call.  Whatever is rebound, added or deleted in the module's
    namespace between two calls, the calls do the same as long as those two
    attributes are what they were. *)
Theorem generate_reads_name_and_package_only
    (h h' : heap) (env : Env) (self : ModuleStubGenerator.t)
    (output_folder : string) (fs : FS) :
  __name__ (h' (ModuleStubGenerator._obj self))
  = __name__ (h (ModuleStubGenerator._obj self)) →
  __package__ (h' (ModuleStubGenerator._obj self))
  = __package__ (h (ModuleStubGenerator._obj self)) →
  ModuleStubGenerator.output_file h' self output_folder
  = ModuleStubGenerator.output_file h self output_folder
  ∧ stub_text h' self = stub_text h self
  ∧ ModuleStubGenerator.generate h' env self output_folder fs
    = ModuleStubGenerator.generate h env self output_folder fs.
Proof.
  intros Hname Hpackage.
  unfold stub_text, ModuleStubGenerator.generate,
    ModuleStubGenerator.root_folder, ModuleStubGenerator.output_file,
    ModuleStubGenerator.module_name, ModuleStubGenerator.package,
    ModuleStubGenerator.header.
  by rewrite Hname, Hpackage.
Qed.

(** ** Paths *)

Lemma split_free (c : ascii) (b : string) :
  PyStr.has_char c b = false → PyStr.split c b = [b].
Proof.
  induction b as [|a b IH]; [done|]. cbn.
  intros [Ha Hb]%orb_false_elim. rewrite Ha, (IH Hb). done.
Qed.

Lemma split_not_nil (c : ascii) (s : string) : PyStr.split c s ≠ [].
Proof.
  destruct s as [|a s]; [done|]. cbn.
  destruct (Ascii.eqb a c); [done|]. by destruct (PyStr.split c s).
Qed.

Lemma split_append_sep (c : ascii) (X b : string) :
  PyStr.has_char c b = false →
  PyStr.split c (X +:+ String c b) = PyStr.split c X ++ [b].
Proof.
  intros Hb. induction X as [|a X IH].
  - rewrite append_nil_l. cbn. rewrite Ascii.eqb_refl. by rewrite split_free.
  - rewrite append_cons. cbn. destruct (Ascii.eqb a c); [by rewrite IH|].
    rewrite IH. destruct (PyStr.split c X) eqn:HX; [|done].
    by apply split_not_nil in HX.
Qed.

Lemma normalize_app (acc : list string) (l1 l2 : list string) :
  normalize acc (l1 ++ l2) = normalize (normalize acc l1) l2.
Proof.
  revert acc. induction l1 as [|w l1 IH]; intros acc; [done|].
  cbn. repeat case_bool_decide; apply IH.
Qed.

Lemma startswith_char (c a : ascii) (s : string) :
  PyStr.startswith (String a s) (String c "")
  = if ascii_dec c a then true else false.
Proof.
  unfold PyStr.startswith. cbn [String.prefix].
  destruct (ascii_dec c a); [|done]. by destruct s.
Qed.

Lemma startswith_append (X Y : string) :
  X ≠ "" → PyStr.startswith (X +:+ Y) "/" = PyStr.startswith X "/".
Proof.
  destruct X as [|a X]; [done|]. intros _.
  by rewrite append_cons, !startswith_char.
Qed.

Lemma startswith_free (b : string) :
  PyStr.has_char PyStr.sep b = false → PyStr.startswith b "/" = false.
Proof.
  destruct b as [|a b]; [done|]. cbn [PyStr.has_char].
  intros [Ha _]%orb_false_elim. rewrite startswith_char.
  destruct (ascii_dec "/" a) as [<-|]; done.
Qed.

Section paths.
Context (env : Env).

(** A trailing separator does not change where a path leads. *)
Lemma resolve_append_sep (X b : string) :
  PyStr.has_char PyStr.sep b = false →
  resolve env (X +:+ String PyStr.sep b)
  = normalize (resolve env (X +:+ String PyStr.sep "")) [b].
Proof.
  intros Hb. unfold resolve.
  rewrite (split_append_sep _ X b Hb), (split_append_sep _ X "") by done.
  rewrite !normalize_app. cbn [normalize].
  rewrite (bool_decide_eq_true_2 ("" = "" ∨ _)) by (by left).
  assert (PyStr.startswith (X +:+ String PyStr.sep b) "/"
          = PyStr.startswith (X +:+ String PyStr.sep "") "/") as ->; [|done].
  destruct X as [|a X]; [by rewrite !append_nil_l, !startswith_char|].
  by rewrite !startswith_append.
Qed.

Lemma resolve_trailing_sep (X : string) :
  X ≠ "" → resolve env (X +:+ String PyStr.sep "") = resolve env X.
Proof.
  intros HX. unfold resolve. rewrite split_append_sep by done.
  rewrite normalize_app, startswith_append by done. cbn.
  by rewrite bool_decide_eq_true_2 by (by left).
Qed.

Lemma endswith_char_inv (X : string) (c : ascii) :
  PyStr.endswith_char X c = true → ∃ X0, X = X0 +:+ String c "".
Proof.
  induction X as [|a X IH]; [done|]. cbn. destruct X as [|a' X].
  - intros ->%Ascii.eqb_eq. by exists "".
  - intros [X0 ->]%IH. by exists (String a X0).
Qed.

(** One step of [os.path.join] with a component that holds no separator
    descends by that component. *)
Lemma resolve_join_step (X b : string) :
  PyStr.has_char PyStr.sep b = false →
  resolve env (os_path.join_step X b) = normalize (resolve env X) [b].
Proof.
  intros Hb. unfold os_path.join_step. rewrite startswith_free by done.
  destruct (String.eqb_spec X "") as [->|HX].
  { cbn [orb]. rewrite append_nil_l. unfold resolve.
    rewrite startswith_free, split_free by done. done. }
  cbn [orb]. destruct (PyStr.endswith_char X PyStr.sep) eqn:Hend.
  - apply endswith_char_inv in Hend as [X0 ->].
    rewrite append_assoc. by rewrite <- resolve_append_sep.
  - change (X +:+ "/" +:+ b) with (X +:+ String PyStr.sep b).
    by rewrite resolve_append_sep, resolve_trailing_sep.
Qed.

Lemma upto_last_free (c : ascii) (s : string) :
  PyStr.has_char c s = false → PyStr.upto_last c s = None.
Proof.
  induction s as [|a s IH]; [done|]. cbn.
  intros [Ha Hs]%orb_false_elim. by rewrite (IH Hs), Ha.
Qed.

Lemma upto_last_append_sep (c : ascii) (X b : string) :
  PyStr.has_char c b = false →
  PyStr.upto_last c (X +:+ String c b) = Some (X +:+ String c "").
Proof.
  intros Hb. induction X as [|a X IH].
  - rewrite !append_nil_l. cbn. by rewrite upto_last_free, Ascii.eqb_refl.
  - rewrite !append_cons. cbn. by rewrite IH.
Qed.

Lemma rstrip_decompose (c : ascii) (Z : string) :
  ∃ k, Z = PyStr.rstrip c Z +:+ PyStr.repeat_char c k.
Proof.
  induction Z as [|a Z [k IH]]; [by exists 0|]. cbn.
  destruct (PyStr.rstrip c Z) as [|a' r] eqn:Hr.
  - rewrite append_nil_l in IH. destruct (Ascii.eqb_spec a c) as [->|_].
    + exists (S k). by rewrite IH.
    + exists k. by rewrite IH.
  - exists k. by rewrite append_cons, <- IH.
Qed.

Lemma resolve_trailing_seps (R : string) (k : nat) :
  R ≠ "" → resolve env (R +:+ PyStr.repeat_char PyStr.sep k) = resolve env R.
Proof.
  revert R. induction k as [|k IH]; intros R HR; cbn.
  - by rewrite append_nil_r.
  - change (String PyStr.sep (PyStr.repeat_char PyStr.sep k))
      with (String PyStr.sep "" +:+ PyStr.repeat_char PyStr.sep k).
    rewrite <- append_assoc, IH; [by apply resolve_trailing_sep|].
    by destruct R.
Qed.

(** [os.path.dirname] of a path that ends in a separator leads where the
    path leads. *)
Lemma resolve_strip (Z : string) :
  resolve env (match PyStr.rstrip PyStr.sep Z with
               | EmptyString => Z
               | stripped => stripped
               end) = resolve env Z.
Proof.
  destruct (rstrip_decompose PyStr.sep Z) as [k HZ].
  destruct (PyStr.rstrip PyStr.sep Z) as [|a r] eqn:Hr; [done|].
  rewrite HZ. by rewrite resolve_trailing_seps.
Qed.

Lemma resolve_dirname (X0 file : string) :
  PyStr.has_char PyStr.sep file = false →
  resolve env (os_path.dirname (X0 +:+ String PyStr.sep file))
  = resolve env (X0 +:+ String PyStr.sep "").
Proof.
  intros Hfile. unfold os_path.dirname.
  rewrite upto_last_append_sep by done. cbn [from_option id].
  apply resolve_strip.
Qed.

(** The last step of the join, with a file name that is an ordinary
    component: the file lies directly in the folder [os.path.dirname]
    gives, which is where the path joined so far leads. *)
Lemma resolve_join_file (P file : string) :
  PyStr.has_char PyStr.sep file = false →
  file ≠ "" → file ≠ "." → file ≠ ".." →
  resolve env (os_path.join_step P file) = file :: resolve env P
  ∧ resolve env (os_path.dirname (os_path.join_step P file)) = resolve env P.
Proof.
  intros Hfile H1 H2 H3. split.
  { rewrite resolve_join_step by done. cbn.
    rewrite bool_decide_eq_false_2 by (by intros [?|?]).
    by rewrite bool_decide_eq_false_2. }
  unfold os_path.join_step. rewrite startswith_free by done.
  destruct (String.eqb_spec P "") as [->|HP].
  { cbn [orb]. rewrite append_nil_l. unfold os_path.dirname.
    by rewrite upto_last_free. }
  cbn [orb]. destruct (PyStr.endswith_char P PyStr.sep) eqn:Hend.
  - apply endswith_char_inv in Hend as [X0 ->].
    rewrite append_assoc, append_cons, append_nil_l. by rewrite resolve_dirname.
  - change (P +:+ "/" +:+ file) with (P +:+ String PyStr.sep file).
    by rewrite resolve_dirname, resolve_trailing_sep.
Qed.

Lemma has_char_append (c : ascii) (s t : string) :
  PyStr.has_char c (s +:+ t) = PyStr.has_char c s || PyStr.has_char c t.
Proof.
  induction s as [|a s IH]; [done|]. rewrite append_cons. cbn.
  by rewrite IH, orb_assoc.
Qed.

Lemma has_char_drop (c : ascii) (n : nat) (s : string) :
  PyStr.has_char c s = false → PyStr.has_char c (PyStr.drop_chars n s) = false.
Proof.
  revert s. induction n as [|n IH]; intros [|a s]; cbn; try done.
  intros [_ Hs]%orb_false_elim. by apply IH.
Qed.

Lemma has_char_removeprefix (c : ascii) (s pre : string) :
  PyStr.has_char c s = false → PyStr.has_char c (PyStr.removeprefix s pre) = false.
Proof.
  intros Hs. unfold PyStr.removeprefix.
  destruct (PyStr.startswith s pre); [by apply has_char_drop|done].
Qed.

(** The pieces [split] returns hold no separator, and no other character
    the string did not hold. *)
Lemma split_pieces (c d : ascii) (s w : string) :
  w ∈ PyStr.split c s →
  PyStr.has_char c w = false ∧ (PyStr.has_char d s = false → PyStr.has_char d w = false).
Proof.
  revert w. induction s as [|a s IH]; intros w; cbn.
  { by intros ->%list_elem_of_singleton. }
  destruct (Ascii.eqb a c) eqn:Hac.
  - intros [->|Hw]%elem_of_cons; [done|].
    destruct (IH w Hw) as [? Hd]. split; [done|].
    intros [_ ?]%orb_false_elim. by apply Hd.
  - destruct (PyStr.split c s) as [|w0 ws] eqn:Hsplit.
    { by apply split_not_nil in Hsplit. }
    intros [->|Hw]%elem_of_cons.
    + destruct (IH w0) as [? Hd]; [by left|]. cbn. rewrite Hac. split; [done|].
      intros [-> ?]%orb_false_elim. by apply Hd.
    + destruct (IH w) as [? Hd]; [by right|]. split; [done|].
      intros [_ ?]%orb_false_elim. by apply Hd.
Qed.


Lemma length_append (s t : string) :
  String.length (s +:+ t) = String.length s + String.length t.
Proof. induction s as [|a s IH]; [done|]. rewrite append_cons. cbn. by rewrite IH. Qed.


End paths.

(** ** Running twice *)

Section twice.
Context (h : heap) (env : Env) (output_folder : string).

Local Abbreviation O := (resolve env output_folder).










End twice.



(** ** The member list *)





(** ** Fuel *)

Section fuel.
Context (h : heap) (env : Env).

Lemma leaf_modules_S (fuel : nat) (module : nat) (pk : option string) :
  leaf_modules h env (S fuel) module pk
  = (search_path ← __path__ (h module);
     @concat nat <$> mapM (child_leaves h env (leaf_modules h env fuel))
       (iter_modules env search_path
          (PyStr.str (match pk with
                      | None => __package__ (h module)
                      | Some p => Some p
                      end) +:+ "."))).
Proof. done. Qed.

(** A walk that had fuel enough finds the same leaves with more. *)
Lemma leaf_modules_more_fuel (fuel : nat) :
  ∀ module pk ls,
    leaf_modules h env fuel module pk = Some ls →
    leaf_modules h env (S fuel) module pk = Some ls.
Proof.
  induction fuel as [|fuel IH]; intros module pk ls Hls; [done|].
  rewrite leaf_modules_S in Hls |- *.
  destruct (__path__ (h module)) as [search_path|]; [|done].
  cbn [mbind option_bind] in Hls |- *.
  set (items := iter_modules env search_path _) in Hls |- *.
  destruct (mapM (child_leaves h env (leaf_modules h env fuel)) items)
    as [lss|] eqn:HmapM; [|done].
  injection Hls as <-.
  assert (mapM (child_leaves h env (leaf_modules h env (S fuel))) items
          = Some lss) as ->; [|done].
  apply mapM_Some. apply mapM_Some in HmapM.
  eapply Forall2_impl; [done|]. intros modinfo ls' Hchild. cbn beta in *.
  apply child_leaves_Some. apply child_leaves_Some in Hchild
    as (loaded & Himp & Hchild).
  exists loaded. split; [done|]. destruct (mi_ispkg modinfo); [|done].
  by apply IH.
Qed.

(** The result of a completed walk does not depend on the fuel it was
    given. *)
Lemma _generate_stubs_more_fuel (fuel extra : nat) (module : nat)
    (output_folder : string) (pk : option string) (fs fs' : FS) :
  StubGenerator._generate_stubs h env fuel module output_folder pk fs = Ok tt fs' →
  StubGenerator._generate_stubs h env (extra + fuel) module output_folder pk fs
  = Ok tt fs'.
Proof.
  intros Hrun. induction extra as [|extra IH]; [done|].
  apply _generate_stubs_Ok in IH as (ls & Hls & Hrender).
  apply _generate_stubs_Ok. exists ls. split; [|done].
  by apply leaf_modules_more_fuel.
Qed.

End fuel.

(** ** The model at work on the demo package *)

Lemma wf_fsb_sound (fs : FS) : wf_fsb fs = true → wf_fs fs.
Proof.
  unfold wf_fsb. rewrite forallb_forall. intros Hall c parent [n Hn].
  apply elem_of_map_to_list, list_elem_of_In, Hall in Hn. cbn in Hn.
  by apply bool_decide_eq_true in Hn.
Qed.

(** A computation that is seen to return has returned its final state. *)
Lemma completes_final_fs (start : FS) (c : M unit) :
  completes (c start) = true → c start = Ok tt (final_fs start c).
Proof. unfold completes, final_fs. by destruct (c start) as [[] ?|?|]. Qed.

Lemma path_exists_true (env : Env) (s : string) (fs : FS) :
  (if String.eqb s "" then false
   else bool_decide (is_Some (lookup_node fs (resolve env s)))) = true →
  os.path_exists env s fs = Ok true fs.
Proof. rewrite path_exists_eq. by intros ->. Qed.

Lemma path_exists_false (env : Env) (s : string) (fs : FS) :
  (if String.eqb s "" then false
   else bool_decide (is_Some (lookup_node fs (resolve env s)))) = false →
  os.path_exists env s fs = Ok false fs.
Proof. rewrite path_exists_eq. by intros ->. Qed.

(** The stub of [geometry]: the class first, dunder names left out, the
    plain values with the comment the script gives them. *)
Example geometry_stub_text :
  Demo.first_call !! Demo.geometry_stub
  = Some (File ("# Auto generatded stub from stubby.py shapes.geometry
" +:+ "
" +:+ "class Point:
" +:+ "    ...
" +:+ "
" +:+ "ZERO: None # builtin: builtins True
" +:+ "
" +:+ "def area(w, h=1): ...
" +:+ "
" +:+ "import math  # type: ignore
" +:+ "
" +:+ "origin: Point # builtin: builtins True
" +:+ "
" +:+ "# Built-in: sqrt
" +:+ "
")).
Proof. vm_compute. reflexivity. Qed.

(** A whole run: the file that was there is gone, one stub per leaf module
    has been written. *)
Example demo_run :
  completes (StubGenerator.generate Demo.h Demo.env 3 Demo.walker Demo.out true
               Demo.fs) = true
  ∧ map_to_list (Demo.fs_after Demo.fs)
    ≡ₚ [ (["work"], Dir); (["dist"; "work"], Dir);
         (["stubs"; "dist"; "work"], Dir);
         (["shapes"; "stubs"; "dist"; "work"], Dir);
         (Demo.geometry_stub, File (stub_text Demo.h Demo.generator).1);
         (["io"; "shapes"; "stubs"; "dist"; "work"], Dir);
         (["reader.pyi"; "io"; "shapes"; "stubs"; "dist"; "work"],
          File (stub_text Demo.h (ModuleStubGenerator.__init__ Demo.h 3)).1) ].
Proof.
  split; [vm_compute; reflexivity|].
  assert (map_to_list (Demo.fs_after Demo.fs)
          = reverse [ (["work"], Dir); (["dist"; "work"], Dir);
              (["stubs"; "dist"; "work"], Dir);
              (["shapes"; "stubs"; "dist"; "work"], Dir);
              (Demo.geometry_stub, File (stub_text Demo.h Demo.generator).1);
              (["io"; "shapes"; "stubs"; "dist"; "work"], Dir);
              (["reader.pyi"; "io"; "shapes"; "stubs"; "dist"; "work"],
               File (stub_text Demo.h
                       (ModuleStubGenerator.__init__ Demo.h 3)).1) ]) as ->
    by (vm_compute; reflexivity).
  apply reverse_Permutation.
Qed.

(** A failed import of the subpackage ends the run; the stub written before
    it stays, nothing is written after it. *)
Example demo_failed_import :
  match StubGenerator.generate Demo.h Demo.env_broken 3 Demo.walker Demo.out
          true Demo.fs_bare with
  | Raise e fs' =>
      e = ModuleNotFoundError "shapes.io"
      ∧ map_to_list fs' = map_to_list Demo.first_call
  | _ => False
  end.
Proof. vm_compute. split; reflexivity. Qed.

(** Too little fuel for the depth of the package. *)
Example demo_out_of_fuel :
  StubGenerator.generate Demo.h Demo.env 1 Demo.walker Demo.out true Demo.fs
  = OutOfFuel.
Proof. vm_compute. reflexivity. Qed.

(** Introspection fails on the second function of [legacy]: the run ends
    with that exception, the stub holding the first function only. *)
Example demo_failed_signature :
  match ModuleStubGenerator.generate Demo.h Demo.env
          (ModuleStubGenerator.__init__ Demo.h 4) Demo.out Demo.fs_bare with
  | Raise e fs' =>
      e = ValueError "no signature found"
      ∧ fs' !! ["legacy.pyi"; "shapes"; "stubs"; "dist"; "work"]
        = Some (File ("# Auto generatded stub from stubby.py shapes.legacy"
                      +:+ PyStr.nl +:+ PyStr.nl
                      +:+ "def alpha(): ..." +:+ PyStr.nl +:+ PyStr.nl))
  | _ => False
  end.
Proof. vm_compute. split; reflexivity. Qed.

Lemma stub_has_one_block_per_public_member_witness :
  ModuleStubGenerator.generate Demo.h Demo.env Demo.generator Demo.out
    Demo.fs_bare = Ok tt Demo.first_call
  ∧ ∃ texts,
      Forall2 (λ nm text, declaration (classify nm.2) nm.1 nm.2 = inr text)
        (filter (λ nm, public nm) (ModuleStubGenerator._members Demo.generator))
        texts
      ∧ Demo.first_call
        !! resolve Demo.env
             (ModuleStubGenerator.output_file Demo.h Demo.generator Demo.out)
        = Some (File (ModuleStubGenerator.header Demo.h Demo.generator
                      +:+ foldr (λ text rest, text +:+ PyStr.nl +:+ PyStr.nl
                                              +:+ rest) "" texts)).
Proof.
  assert (ModuleStubGenerator.generate Demo.h Demo.env Demo.generator Demo.out
            Demo.fs_bare = Ok tt Demo.first_call) as Hrun
    by (apply completes_final_fs; vm_compute; reflexivity).
  split; [exact Hrun|].
  exact (stub_has_one_block_per_public_member Demo.h Demo.env Demo.generator
           Demo.out Demo.fs_bare Demo.first_call Hrun).
Defined.

Lemma stub_path_derived_and_folder_created_witness :
  ModuleStubGenerator.generate Demo.h Demo.env Demo.generator Demo.out
    Demo.fs_bare = Ok tt Demo.first_call
  ∧ ModuleStubGenerator.output_file Demo.h Demo.generator Demo.out
    = "dist/stubs/shapes/geometry.pyi"
  ∧ ModuleStubGenerator.root_folder Demo.h Demo.generator Demo.out
    = "dist/stubs/shapes"
  ∧ lookup_node Demo.fs_bare ["shapes"; "stubs"; "dist"; "work"] = None
  ∧ (∀ q, q `suffix_of` ["shapes"; "stubs"; "dist"; "work"] →
          lookup_node Demo.first_call q = Some Dir).
Proof.
  assert (ModuleStubGenerator.generate Demo.h Demo.env Demo.generator Demo.out
            Demo.fs_bare = Ok tt Demo.first_call) as Hrun
    by (apply completes_final_fs; vm_compute; reflexivity).
  split_and!; [done|vm_compute; reflexivity..|].
  destruct (stub_path_derived_and_folder_created Demo.h Demo.env Demo.generator
              Demo.out Demo.fs_bare Demo.first_call Hrun)
    as (_ & _ & _ & fs1 & _ & _ & Hmissing & _ & _).
  destruct Hmissing as (_ & _ & _ & Hfolders); [vm_compute; reflexivity|].
  apply Hfolders. apply wf_fsb_sound. vm_compute. reflexivity.
Defined.

Lemma flush_removes_old_output_before_generation_witness :
  os.path_exists Demo.env Demo.out Demo.fs = Ok true Demo.fs
  ∧ StubGenerator.generate Demo.h Demo.env 3 Demo.walker Demo.out true Demo.fs
    = Ok tt (Demo.fs_after Demo.fs)
  ∧ lookup_node Demo.fs ["notes.txt"; "stubs"; "dist"; "work"]
    = Some (File "keep me")
  ∧ ∃ fs0 ls,
      os.rmtree Demo.env Demo.out Demo.fs = Ok tt fs0
      ∧ (∀ p, resolve Demo.env Demo.out `suffix_of` p → lookup_node fs0 p = None)
      ∧ (∀ p, ¬ resolve Demo.env Demo.out `suffix_of` p →
           lookup_node fs0 p = lookup_node Demo.fs p)
      ∧ StubGenerator._generate_stubs Demo.h Demo.env 3
          (StubGenerator.module Demo.walker) Demo.out None fs0
        = Ok tt (Demo.fs_after Demo.fs)
      ∧ leaf_modules Demo.h Demo.env 3 (StubGenerator.module Demo.walker) None
        = Some ls
      ∧ ∀ p, resolve Demo.env Demo.out `suffix_of` p →
          lookup_node (Demo.fs_after Demo.fs) p = None
          ∨ lookup_node (Demo.fs_after Demo.fs) p = Some Dir
          ∨ ∃ l, l ∈ ls
              ∧ p = resolve Demo.env
                      (ModuleStubGenerator.output_file Demo.h
                         (ModuleStubGenerator.__init__ Demo.h l) Demo.out)
              ∧ lookup_node (Demo.fs_after Demo.fs) p
                = Some (File (stub_text Demo.h
                                (ModuleStubGenerator.__init__ Demo.h l)).1).
Proof.
  assert (os.path_exists Demo.env Demo.out Demo.fs = Ok true Demo.fs) as Hthere
    by (apply path_exists_true; vm_compute; reflexivity).
  assert (StubGenerator.generate Demo.h Demo.env 3 Demo.walker Demo.out true
            Demo.fs = Ok tt (Demo.fs_after Demo.fs)) as Hrun
    by (apply completes_final_fs; vm_compute; reflexivity).
  split_and!; [done|done|vm_compute; reflexivity|].
  exact (flush_removes_old_output_before_generation Demo.h Demo.env 3
           Demo.walker Demo.out Demo.fs (Demo.fs_after Demo.fs) Hthere Hrun).
Defined.


Lemma walk_imports_children_and_renders_each_leaf_witness :
  (∀ l search_path,
     __path__ (Demo.h l) = Some search_path →
     __package__ (Demo.h l) = Some (__name__ (Demo.h l)))
  ∧ StubGenerator.generate Demo.h Demo.env 3 Demo.walker Demo.out true Demo.fs
    = Ok tt (Demo.fs_after Demo.fs)
  ∧ ∃ ls fs0,
      leaf_modules Demo.h Demo.env 3 (StubGenerator.module Demo.walker) None
      = Some ls
      ∧ (∀ pkg prefix,
           walked Demo.h Demo.env (StubGenerator.module Demo.walker) pkg prefix →
           ∃ search_path,
             __path__ (Demo.h pkg) = Some search_path
             ∧ ∀ modinfo,
                 modinfo ∈ iter_modules Demo.env search_path (prefix +:+ ".") →
                 ∃ loaded,
                   import_module Demo.env (mi_name modinfo) = inr loaded
                   ∧ if mi_ispkg modinfo
                     then walked Demo.h Demo.env
                            (StubGenerator.module Demo.walker) loaded
                            (__name__ (Demo.h loaded))
                     else loaded ∈ ls)
      ∧ (∀ l, l ∈ ls →
           ∃ pkg prefix search_path modinfo,
             walked Demo.h Demo.env (StubGenerator.module Demo.walker) pkg prefix
             ∧ __path__ (Demo.h pkg) = Some search_path
             ∧ modinfo ∈ iter_modules Demo.env search_path (prefix +:+ ".")
             ∧ mi_ispkg modinfo = false
             ∧ import_module Demo.env (mi_name modinfo) = inr l)
      ∧ flush_step Demo.env Demo.out true Demo.fs = Ok tt fs0
      ∧ render_all Demo.h Demo.env Demo.out ls fs0 = Ok tt (Demo.fs_after Demo.fs)
      ∧ ∀ l, l ∈ ls →
          ∃ data,
            lookup_node (Demo.fs_after Demo.fs)
              (resolve Demo.env
                 (ModuleStubGenerator.output_file Demo.h
                    (ModuleStubGenerator.__init__ Demo.h l) Demo.out))
            = Some (File data).
Proof.
  assert (∀ l search_path,
            __path__ (Demo.h l) = Some search_path →
            __package__ (Demo.h l) = Some (__name__ (Demo.h l))) as Hpkg.
  { intros [|[|[|[|l]]]] search_path; by cbn. }
  assert (StubGenerator.generate Demo.h Demo.env 3 Demo.walker Demo.out true
            Demo.fs = Ok tt (Demo.fs_after Demo.fs)) as Hrun
    by (apply completes_final_fs; vm_compute; reflexivity).
  split_and!; [done..|].
  exact (walk_imports_children_and_renders_each_leaf Demo.h Demo.env 3
           Demo.walker Demo.out true Demo.fs (Demo.fs_after Demo.fs) Hpkg Hrun).
Defined.

Lemma flush_of_missing_output_is_a_noop_witness :
  os.path_exists Demo.env Demo.out Demo.fs_bare = Ok false Demo.fs_bare
  ∧ StubGenerator.generate Demo.h Demo.env 3 Demo.walker Demo.out true
      Demo.fs_bare
    = StubGenerator._generate_stubs Demo.h Demo.env 3
        (StubGenerator.module Demo.walker) Demo.out None Demo.fs_bare
  ∧ StubGenerator.generate Demo.h Demo.env 3 Demo.walker Demo.out true
      Demo.fs_bare
    = StubGenerator.generate Demo.h Demo.env 3 Demo.walker Demo.out false
        Demo.fs_bare.
Proof.
  assert (os.path_exists Demo.env Demo.out Demo.fs_bare = Ok false Demo.fs_bare)
    as Hmissing by (apply path_exists_false; vm_compute; reflexivity).
  split; [done|].
  exact (flush_of_missing_output_is_a_noop Demo.h Demo.env 3 Demo.walker
           Demo.out Demo.fs_bare Hmissing).
Defined.

(** The module's namespace has lost [origin] and gained [extra] between the
    calls; the generator built before does what it did. *)
Lemma generate_reads_name_and_package_only_witness :
  __dict__ (Demo.h_rebound 1) ≠ __dict__ (Demo.h 1)
  ∧ __name__ (Demo.h_rebound 1) = __name__ (Demo.h 1)
  ∧ __package__ (Demo.h_rebound 1) = __package__ (Demo.h 1)
  ∧ ModuleStubGenerator.output_file Demo.h_rebound Demo.generator Demo.out
    = ModuleStubGenerator.output_file Demo.h Demo.generator Demo.out
  ∧ stub_text Demo.h_rebound Demo.generator = stub_text Demo.h Demo.generator
  ∧ ModuleStubGenerator.generate Demo.h_rebound Demo.env Demo.generator Demo.out
      Demo.first_call
    = ModuleStubGenerator.generate Demo.h Demo.env Demo.generator Demo.out
        Demo.first_call.
Proof.
  split_and!; [done..| | |];
    by apply (generate_reads_name_and_package_only Demo.h Demo.h_rebound Demo.env
                Demo.generator Demo.out Demo.first_call).
Defined.

(** C10, the claim as stated, fails.  The same generator is called twice with
    the same output folder; between the calls the module's [__name__] is
    reassigned.  The first call writes [geometry.pyi], the second writes a
    different text to a different file, [renamed.pyi]: what a call writes is
    not a function of the snapshot and the output folder alone. *)
Lemma renaming_the_module_between_calls_changes_the_stub :
  ModuleStubGenerator.generate Demo.h Demo.env Demo.generator Demo.out
    Demo.fs_bare = Ok tt Demo.first_call
  ∧ ModuleStubGenerator.generate Demo.h_renamed Demo.env Demo.generator Demo.out
      Demo.first_call = Ok tt Demo.second_call
  ∧ ModuleStubGenerator._members Demo.generator = getmembers Demo.geometry
  ∧ (∃ text1 text2,
       Demo.first_call !! Demo.geometry_stub = Some (File text1)
       ∧ Demo.second_call !! Demo.geometry_stub = Some (File text1)
       ∧ Demo.first_call !! Demo.renamed_stub = None
       ∧ Demo.second_call !! Demo.renamed_stub = Some (File text2)
       ∧ text1 ≠ text2)
  ∧ ModuleStubGenerator.generate Demo.h_renamed Demo.env Demo.generator Demo.out
      Demo.fs_bare
    ≠ ModuleStubGenerator.generate Demo.h Demo.env Demo.generator Demo.out
        Demo.fs_bare.
Proof.
  split_and!.
  - apply completes_final_fs. vm_compute. reflexivity.
  - apply completes_final_fs. vm_compute. reflexivity.
  - reflexivity.
  - eexists _, _. split_and!; [vm_compute; reflexivity..|].
    vm_compute. discriminate.
  - intros Heq.
    apply (f_equal (λ o, match o with
                         | Ok _ fs' => fs' !! Demo.renamed_stub
                         | _ => None
                         end)) in Heq.
    vm_compute in Heq. discriminate.
Qed.

(* ================================================================= *)
(** ** Further properties: frames, failures, locations and progress *)

Section frame.
Context (h : heap) (env : Env) (output_folder : string) (known : nat → Prop).

Local Abbreviation step := (rendered_at h env output_folder known).

Lemma rendered_at_refl (fs : FS) (p : path) : step fs fs p.
Proof. by left. Qed.

Lemma rendered_at_trans (fs fs1 fs2 : FS) (p : path) :
  step fs fs1 p → step fs1 fs2 p → step fs fs2 p.
Proof.
  intros Hfirst [Heq|[[Hnone Hdir]|(l & Hl & Hp & Hold & Hfile)]].
  - destruct Hfirst as [?|[[? ?]|(l & ? & ? & ? & ?)]].
    + left. congruence.
    + right; left. split; congruence.
    + right; right. exists l. split_and!; congruence.
  - destruct Hfirst as [Heq|[[_ Heq]|(? & _ & _ & _ & Heq)]]; [|congruence..].
    right; left. split; congruence.
  - right; right. exists l. split_and!; [done|done| |done].
    destruct Hfirst as [Heq|[[Heq _]|(? & _ & _ & ? & _)]]; congruence.
Qed.

Lemma ends_in_bind {A B} (c : M A) (k : A → M B) (fs : FS)
    (P Q : FS → Prop) :
  ends_in (c fs) P →
  (∀ fs1, P fs1 → Q fs1) →
  (∀ a fs1, P fs1 → ends_in (k a fs1) Q) →
  ends_in (bind c k fs) Q.
Proof.
  unfold bind. destruct (c fs) as [a fs1|e fs1|]; cbn; eauto.
Qed.

Lemma mkdir_frame (p : path) (fs : FS) :
  ends_in (os.mkdir p fs)
    (λ fs', ∀ q, lookup_node fs' q = lookup_node fs q
                 ∨ (lookup_node fs q = None ∧ lookup_node fs' q = Some Dir)).
Proof.
  unfold os.mkdir. destruct p as [|c parent]; cbn; [by left|].
  destruct (lookup_node fs parent) as [[?|]|]; cbn; try by left.
  destruct (fs !! (c :: parent)) eqn:Hp; cbn; [by left|].
  intros q. rewrite lookup_node_insert by done. case_decide as Hq; [|by left].
  subst q. by right.
Qed.

Lemma makedirs_at_frame (p : path) :
  ∀ fs : FS, ends_in (os.makedirs_at p fs)
          (λ fs', ∀ q, lookup_node fs' q = lookup_node fs q
                       ∨ (lookup_node fs q = None ∧ lookup_node fs' q = Some Dir)).
Proof.
  induction p as [|c parent IH]; intros fs; [apply mkdir_frame|].
  cbn [os.makedirs_at].
  eapply (ends_in_bind _ _ _
            (λ fs', ∀ q, lookup_node fs' q = lookup_node fs q
                         ∨ (lookup_node fs q = None ∧ lookup_node fs' q = Some Dir))).
  - case_bool_decide; [by left|apply IH].
  - done.
  - intros _ fs1 Hfs1. pose proof (mkdir_frame (c :: parent) fs1) as Hmk.
    destruct (os.mkdir (c :: parent) fs1) as [? fs2|? fs2|]; cbn in *; [| |done];
      intros q; (destruct (Hmk q) as [Heq|[Hnone Hdir]];
                 [rewrite Heq; apply Hfs1|]);
      (destruct (Hfs1 q) as [Heq'|[? Heq']]; [|congruence]);
      right; split; congruence.
Qed.

Lemma ensure_dir_frame (s : string) (fs : FS) :
  ends_in (ensure_dir env s fs)
    (λ fs', ∀ q, lookup_node fs' q = lookup_node fs q
                 ∨ (lookup_node fs q = None ∧ lookup_node fs' q = Some Dir)).
Proof.
  unfold ensure_dir, bind. rewrite path_exists_eq.
  destruct (negb _); [|by left]. unfold os.makedirs.
  destruct (String.eqb s ""); [by left|]. apply makedirs_at_frame.
Qed.

(** However a rendering ends, each entry is as it was, a new directory, or
    the module's stub. *)
Lemma generate_any_frame (l : nat) (fs : FS) :
  known l →
  ends_in (ModuleStubGenerator.generate h env (ModuleStubGenerator.__init__ h l)
             output_folder fs)
    (λ fs', ∀ p, step fs fs' p).
Proof.
  intros Hl. rewrite generate_eq. unfold generate_steps.
  eapply ends_in_bind; [apply ensure_dir_frame| |].
  { intros fs1 Hfs1 p. destruct (Hfs1 p) as [?|?]; [by left|by right; left]. }
  intros _ fs1 Hfs1.
  assert (∀ p, step fs fs1 p) as Hstep.
  { intros p. destruct (Hfs1 p) as [?|?]; [by left|by right; left]. }
  unfold bind.
  destruct (os.open_w env _ fs1) as [f fs2|e fs2|] eqn:Hopen; cbn; [| |done].
  - apply open_w_Ok_inv in Hopen as (_ & -> & -> & Hold & c & parent & Hf & _).
    unfold store_stub. rewrite insert_insert_eq.
    assert (∀ p, step fs (<[resolve env (ModuleStubGenerator.output_file h
                 (ModuleStubGenerator.__init__ h l) output_folder)
               := File (stub_text h (ModuleStubGenerator.__init__ h l)).1]> fs1) p)
      as Hfinal.
    { intros p. eapply rendered_at_trans; [apply Hstep|].
      rewrite Hf. unfold rendered_at. rewrite lookup_node_insert by done.
      case_decide as Hp; [|by left]. subst p. right; right. exists l.
      rewrite Hf in *. by split_and!. }
    by destruct (stub_text h _).2.
  - unfold os.open_w in Hopen.
    destruct (String.eqb _ ""); [by injection Hopen as <- <-|].
    destruct (resolve env _) as [|c parent]; [by injection Hopen as <- <-|].
    destruct (lookup_node fs1 parent) as [[?|]|];
      [by injection Hopen as <- <-| |by injection Hopen as <- <-].
    destruct (fs1 !! (c :: parent)) as [[?|]|]; try done.
    by injection Hopen as <- <-.
Qed.

Lemma for_each_frame {A} (l : list A) (body : A → M unit) :
  (∀ x (fs : FS), ends_in (body x fs) (λ fs', ∀ p, step fs fs' p)) →
  ∀ fs : FS, ends_in (for_each l body fs) (λ fs', ∀ p, step fs fs' p).
Proof.
  intros Hbody. induction l as [|x l IH]; intros fs; cbn; [by left|].
  eapply ends_in_bind; [apply Hbody|done|].
  intros _ fs1 Hfs1. specialize (IH fs1).
  destruct (for_each l body fs1); cbn in *; [| |done];
    intros p; by eapply rendered_at_trans.
Qed.

(** However the walk ends, each entry is as it was, a new directory, or a
    stub. *)
Lemma _generate_stubs_frame (fuel : nat) :
  (∀ l, importable env l → known l) →
  ∀ module pk fs,
    ends_in (StubGenerator._generate_stubs h env fuel module output_folder pk fs)
      (λ fs', ∀ p, step fs fs' p).
Proof.
  intros Hknown. induction fuel as [|fuel IH]; intros module pk fs; [done|].
  cbn [StubGenerator._generate_stubs].
  destruct (__path__ (h module)) as [search_path|]; cbn [from_option lift];
    [|by left].
  unfold bind at 1. cbn [ret].
  apply for_each_frame. intros modinfo fs0.
  destruct (import_module env (mi_name modinfo)) as [e|loaded] eqn:Himport;
    cbn [lift]; [by left|].
  unfold bind, ret.
  destruct (mi_ispkg modinfo); [apply IH|apply generate_any_frame].
  apply Hknown. by exists (mi_name modinfo).
Qed.

End frame.

Lemma ends_in_impl {A} (o : outcome A) (P Q : FS → Prop) :
  ends_in o P → (∀ fs, P fs → Q fs) → ends_in o Q.
Proof. destruct o; cbn; eauto. Qed.


(** The walk started on a file system with nothing at the output directory
    or below it: however it ends, what is there are directories and stubs of
    imported modules. *)
Lemma walk_on_flushed (h : heap) (env : Env) (output_folder : string)
    (fuel : nat) (module : nat) (pk : option string) (fs0 : FS) :
  (∀ p, resolve env output_folder `suffix_of` p → lookup_node fs0 p = None) →
  ends_in (StubGenerator._generate_stubs h env fuel module output_folder pk fs0)
    (λ fs', ∀ p,
       resolve env output_folder `suffix_of` p →
       lookup_node fs' p = None
       ∨ lookup_node fs' p = Some Dir
       ∨ ∃ l, importable env l
              ∧ p = resolve env (ModuleStubGenerator.output_file h
                                   (ModuleStubGenerator.__init__ h l)
                                   output_folder)
              ∧ lookup_node fs' p
                = Some (File (stub_text h
                                (ModuleStubGenerator.__init__ h l)).1)).
Proof.
  intros Hgone.
  eapply ends_in_impl;
    [apply (_generate_stubs_frame h env output_folder (importable env) fuel);
     auto|].
  intros fs' Hframe p Hp.
  destruct (Hframe p) as [Heq|[[_ ?]|(l & ? & ? & _ & ?)]];
    [left; rewrite Heq; by apply Hgone|by right; left|right; right; eauto].
Qed.



Lemma join_step_nonempty (X b : string) : b ≠ "" → os_path.join_step X b ≠ "".
Proof.
  intros Hb. unfold os_path.join_step.
  destruct (PyStr.startswith b "/"); [done|].
  destruct b as [|a b]; [done|].
  destruct (_ || _); intros Hempty; apply (f_equal String.length) in Hempty;
    rewrite !length_append in Hempty; cbn in Hempty; lia.
Qed.

(** Where [main] sends the stubs. *)
Lemma main_output_folder (env : Env) (root : string) :
  os_path.join root ["dist"; "stubs"] ≠ ""
  ∧ resolve env (os_path.join root ["dist"; "stubs"])
    = "stubs" :: "dist" :: resolve env root.
Proof.
  unfold os_path.join. cbn [fold_left].
  destruct (resolve_join_file env (os_path.join_step root "dist") "stubs")
    as [Hstubs _]; [done..|].
  destruct (resolve_join_file env root "dist") as [Hdist _]; [done..|].
  split; [by apply join_step_nonempty|by rewrite Hstubs, Hdist].
Qed.

Lemma resolve_fold_join (env : Env) (segs : list string) :
  ∀ X, Forall (λ w, PyStr.has_char PyStr.sep w = false) segs →
       resolve env (fold_left os_path.join_step segs X)
       = normalize (resolve env X) segs.
Proof.
  induction segs as [|w segs IH]; intros X Hsegs; [done|].
  apply Forall_cons in Hsegs as [Hw Hsegs]. cbn [fold_left].
  rewrite IH, resolve_join_step by done.
  by rewrite <- (normalize_app _ [w] segs).
Qed.

Lemma normalize_dotless (segs : list string) :
  ∀ acc, Forall (λ w, PyStr.has_char "." w = false) segs →
         normalize acc segs = rev (filter (λ w, w ≠ "") segs) ++ acc.
Proof.
  induction segs as [|w segs IH]; intros acc Hsegs; [done|].
  apply Forall_cons in Hsegs as [Hw Hsegs]. cbn [normalize].
  rewrite filter_cons. case_bool_decide as Hskip.
  - destruct Hskip as [->| ->]; [|done]. rewrite decide_False by tauto.
    by apply IH.
  - case_bool_decide as Hup; [by subst w|].
    rewrite decide_True by tauto. rewrite IH by done. cbn [rev].
    by rewrite <- app_assoc.
Qed.

(** The directory the package part of the output path leads to. *)
Lemma resolve_package_folder (env : Env) (pkg output_folder : string) :
  PyStr.has_char PyStr.sep pkg = false →
  resolve env (fold_left os_path.join_step (PyStr.split "." pkg) output_folder)
  = rev (filter (λ w, w ≠ "") (PyStr.split "." pkg))
    ++ resolve env output_folder.
Proof.
  intros Hpkg. rewrite resolve_fold_join.
  - apply normalize_dotless. apply Forall_forall. intros w Hw.
    by destruct (split_pieces "." PyStr.sep _ w Hw).
  - apply Forall_forall. intros w Hw.
    destruct (split_pieces "." PyStr.sep _ w Hw) as [_ Hsep]. by apply Hsep.
Qed.


(** The output path is the file [<module name>.pyi] in the stub's folder
    (module name without separator). *)
Lemma stub_file_in_root_folder (h : heap) (env : Env)
    (self : ModuleStubGenerator.t) (output_folder : string) :
  PyStr.has_char PyStr.sep (__name__ (h (ModuleStubGenerator._obj self)))
  = false →
  resolve env (ModuleStubGenerator.output_file h self output_folder)
  = (ModuleStubGenerator.module_name h self +:+ ".pyi")
      :: resolve env (ModuleStubGenerator.root_folder h self output_folder)
  ∧ resolve env (ModuleStubGenerator.root_folder h self output_folder)
    = resolve env (fold_left os_path.join_step
                     (PyStr.split "." (ModuleStubGenerator.package h self))
                     output_folder).
Proof.
  intros Hname.
  unfold ModuleStubGenerator.root_folder, ModuleStubGenerator.output_file,
    os_path.join.
  rewrite fold_left_app. cbn [fold_left].
  set (P := fold_left os_path.join_step _ output_folder).
  set (file := ModuleStubGenerator.module_name h self +:+ ".pyi").
  assert (PyStr.has_char PyStr.sep file = false) as Hfile.
  { unfold file. rewrite has_char_append. cbn.
    unfold ModuleStubGenerator.module_name. by rewrite has_char_removeprefix. }
  assert (4 ≤ String.length file) as Hlen.
  { unfold file. rewrite length_append. cbn. lia. }
  destruct (resolve_join_file env P file Hfile) as [-> ->]; [..|done];
    intros Heq; rewrite Heq in Hlen; cbn in Hlen; lia.
Qed.


(** X2. No rollback.  With the flush flag set and the output directory
    removed, nothing of the old content is back when the run stops, whether
    it returns or raises: at the output directory and below it there are only
    directories the run made and stubs it wrote. *)
Theorem flushed_output_stays_gone_when_the_run_fails
    (h : heap) (env : Env) (fuel : nat) (self : StubGenerator.t)
    (output_folder : string) (fs fs0 : FS) :
  os.path_exists env output_folder fs = Ok true fs →
  os.rmtree env output_folder fs = Ok tt fs0 →
  ends_in (StubGenerator.generate h env fuel self output_folder true fs)
    (λ fs', ∀ p,
       resolve env output_folder `suffix_of` p →
       lookup_node fs' p = None
       ∨ lookup_node fs' p = Some Dir
       ∨ ∃ l, importable env l
              ∧ p = resolve env (ModuleStubGenerator.output_file h
                                   (ModuleStubGenerator.__init__ h l)
                                   output_folder)
              ∧ lookup_node fs' p
                = Some (File (stub_text h
                                (ModuleStubGenerator.__init__ h l)).1)).
Proof.
  intros Hthere Hflush. unfold StubGenerator.generate.
  rewrite (bind_Ok _ _ _ _ _ Hthere), (bind_Ok _ _ _ _ _ Hflush).
  apply rmtree_Ok_inv in Hflush as (_ & _ & _ & Hgone & _).
  by apply walk_on_flushed.
Qed.

(** X3. Rendering a module a second time changes nothing: [generate] on the
    file system a completed [generate] left returns and leaves it as it
    is. *)
Theorem generate_again_changes_nothing
    (h : heap) (env : Env) (self : ModuleStubGenerator.t)
    (output_folder : string) (fs fs' : FS) :
  ModuleStubGenerator.generate h env self output_folder fs = Ok tt fs' →
  ModuleStubGenerator.generate h env self output_folder fs' = Ok tt fs'.
Proof.
  intros Hrun. apply generate_Ok_inv in Hrun
    as (fs1 & c & parent & Hensure & Hfile & Hf & Hparent & Hold & Htext & ->).
  apply ensure_dir_Ok_inv in Hensure as (Hfolder & Hcases).
  assert (is_Some (lookup_node fs1
            (resolve env (ModuleStubGenerator.root_folder h self output_folder))))
    as Hthere.
  { destruct Hcases as [[? ->]|[_ Hmk]]; [done|].
    apply makedirs_at_Ok_inv in Hmk as (_ & -> & _). eauto. }
  rewrite <- (insert_insert_eq fs1 (c :: parent)
                (File (stub_text h self).1) (File (stub_text h self).1)) at 2.
  apply generate_Ok; [|done|done| | |done].
  - apply ensure_dir_present; [done|].
    rewrite lookup_node_insert by done. case_decide; [by eexists|done].
  - rewrite lookup_node_insert by done. case_decide as Heq; [|done].
    apply (f_equal length) in Heq. cbn in Heq. lia.
  - by rewrite lookup_insert_eq.
Qed.

(** X4. Last write wins.  After a completed walk the file at a leaf's output
    path holds that leaf's stub, whole and alone, unless a leaf met later has
    the same output path. *)
Theorem stub_holds_the_text_of_its_last_writer
    (h : heap) (env : Env) (fuel : nat) (module : nat)
    (output_folder : string) (pk : option string) (fs fs' : FS)
    (before after : list nat) (l : nat) :
  StubGenerator._generate_stubs h env fuel module output_folder pk fs
  = Ok tt fs' →
  leaf_modules h env fuel module pk = Some (before ++ l :: after) →
  (∀ l', l' ∈ after →
     resolve env (ModuleStubGenerator.output_file h
                    (ModuleStubGenerator.__init__ h l') output_folder)
     ≠ resolve env (ModuleStubGenerator.output_file h
                      (ModuleStubGenerator.__init__ h l) output_folder)) →
  lookup_node fs'
    (resolve env (ModuleStubGenerator.output_file h
                    (ModuleStubGenerator.__init__ h l) output_folder))
  = Some (File (stub_text h (ModuleStubGenerator.__init__ h l)).1)
  ∧ (stub_text h (ModuleStubGenerator.__init__ h l)).2 = None.
Proof.
  intros Hrun Hls Hafter.
  apply _generate_stubs_Ok in Hrun as (ls & Hls' & Hrender).
  rewrite Hls in Hls'. injection Hls' as <-.
  rewrite render_all_app in Hrender.
  apply bind_Ok_inv in Hrender as ([] & fs1 & _ & Hrender).
  unfold render_all in Hrender. cbn [for_each] in Hrender.
  apply bind_Ok_inv in Hrender as ([] & fs2 & Hl & Hrest).
  apply generate_Ok_inv in Hl
    as (fs0 & c & parent & _ & _ & Hf & _ & _ & Htext & ->).
  split; [|done].
  destruct (render_all_frame h env output_folder after _ _
              (resolve env (ModuleStubGenerator.output_file h
                              (ModuleStubGenerator.__init__ h l) output_folder))
              Hrest) as [Heq|[[Hnone _]|(l' & Hl' & Hp & _)]].
  - rewrite Heq, Hf. cbn. by rewrite lookup_insert_eq.
  - rewrite Hf in Hnone. cbn in Hnone. by rewrite lookup_insert_eq in Hnone.
  - by destruct (Hafter l' Hl').
Qed.

(** X5. A module whose members all have names starting with two underscores
    (or that has none) gets a stub that is the header line and nothing
    else, and rendering it never fails in the member loop. *)
Theorem stub_of_a_module_without_public_members
    (h : heap) (env : Env) (self : ModuleStubGenerator.t)
    (output_folder : string) (fs fs' : FS) :
  Forall (λ nm, PyStr.startswith nm.1 "__" = true)
    (ModuleStubGenerator._members self) →
  stub_text h self = (ModuleStubGenerator.header h self, None)
  ∧ (ModuleStubGenerator.generate h env self output_folder fs = Ok tt fs' →
     fs' !! resolve env (ModuleStubGenerator.output_file h self output_folder)
     = Some (File ("# Auto generatded stub from stubby.py "
                   +:+ __name__ (h (ModuleStubGenerator._obj self))
                   +:+ PyStr.nl +:+ PyStr.nl))).
Proof.
  intros Hall.
  assert (render_members (ModuleStubGenerator._members self) = ("", None))
    as Hbody.
  { induction Hall as [|[name member] members Hname _ IH]; [done|].
    cbn [render_members]. cbn [fst] in Hname. by rewrite Hname. }
  assert (stub_text h self = (ModuleStubGenerator.header h self, None)) as Htext.
  { unfold stub_text. by rewrite Hbody, append_nil_r. }
  split; [done|]. intros Hrun.
  apply generate_Ok_inv in Hrun
    as (fs1 & c & parent & _ & _ & -> & _ & _ & _ & ->).
  by rewrite lookup_insert_eq, Htext.
Qed.

(** X6. Flushing for a package with no children: the output directory is
    removed and nothing is made in its place. *)
Theorem flush_for_an_empty_package_leaves_no_output
    (h : heap) (env : Env) (fuel : nat) (self : StubGenerator.t)
    (output_folder : string) (search_path : list string) (fs fs0 : FS) :
  __path__ (h (StubGenerator.module self)) = Some search_path →
  scan env search_path = [] →
  os.path_exists env output_folder fs = Ok true fs →
  os.rmtree env output_folder fs = Ok tt fs0 →
  StubGenerator.generate h env (S fuel) self output_folder true fs = Ok tt fs0
  ∧ os.path_exists env output_folder fs0 = Ok false fs0.
Proof.
  intros Hpath Hscan Hthere Hflush. unfold StubGenerator.generate.
  rewrite (bind_Ok _ _ _ _ _ Hthere), (bind_Ok _ _ _ _ _ Hflush).
  split.
  - rewrite (_generate_stubs_unfold _ _ _ _ _ _ _ _ Hpath).
    unfold iter_modules. by rewrite Hscan.
  - apply rmtree_Ok_inv in Hflush as (_ & _ & _ & Hgone & _).
    apply path_exists_false. destruct (String.eqb output_folder ""); [done|].
    apply bool_decide_eq_false_2. rewrite Hgone by done. by intros [? ?].
Qed.


(** X8. Where a stub lands.  For a module whose name and package contain no
    path separator, the stub is the file [<module name>.pyi] in the
    directory reached from the output directory through the non-empty
    dot-separated pieces of the package, one level each; the folder made
    for it is that directory. *)
Theorem stub_location_follows_the_dotted_package
    (h : heap) (env : Env) (self : ModuleStubGenerator.t)
    (output_folder : string) :
  PyStr.has_char PyStr.sep (ModuleStubGenerator.package h self) = false →
  PyStr.has_char PyStr.sep (__name__ (h (ModuleStubGenerator._obj self)))
  = false →
  resolve env (ModuleStubGenerator.output_file h self output_folder)
  = (ModuleStubGenerator.module_name h self +:+ ".pyi")
      :: rev (filter (λ w, w ≠ "")
                (PyStr.split "." (ModuleStubGenerator.package h self)))
      ++ resolve env output_folder
  ∧ resolve env (ModuleStubGenerator.root_folder h self output_folder)
    = rev (filter (λ w, w ≠ "")
             (PyStr.split "." (ModuleStubGenerator.package h self)))
      ++ resolve env output_folder.
Proof.
  intros Hpkg Hname.
  destruct (stub_file_in_root_folder h env self output_folder Hname)
    as [Hfile Hfolder].
  rewrite Hfile, Hfolder. by rewrite resolve_package_folder.
Qed.

(** X9. A module name that starts with the path separator takes the stub
    out of the output folder: the output path is the name itself with
    [.pyi] appended, whatever the output folder and the package are. *)
Theorem module_name_with_leading_separator_ignores_the_output_folder
    (h : heap) (self : ModuleStubGenerator.t) (output_folder : string) :
  PyStr.startswith (ModuleStubGenerator.module_name h self) "/" = true →
  ModuleStubGenerator.output_file h self output_folder
  = ModuleStubGenerator.module_name h self +:+ ".pyi".
Proof.
  intros Habs.
  unfold ModuleStubGenerator.output_file, os_path.join.
  rewrite fold_left_app. cbn [fold_left]. unfold os_path.join_step at 1.
  rewrite startswith_append, Habs; [done|].
  intros Hempty. by rewrite Hempty in Habs.
Qed.

(** X10. Generating the stub of a top-level module (empty package) into the
    output folder named by the empty string fails: the folder to make is the
    empty path, [os.path.exists] is false for it and [os.makedirs] raises
    [FileNotFoundError]; nothing is written. *)
Theorem generate_into_the_empty_folder_name_raises
    (h : heap) (env : Env) (self : ModuleStubGenerator.t) (fs : FS) :
  __package__ (h (ModuleStubGenerator._obj self)) = Some "" →
  PyStr.has_char PyStr.sep (__name__ (h (ModuleStubGenerator._obj self)))
  = false →
  ModuleStubGenerator.root_folder h self "" = ""
  ∧ ModuleStubGenerator.generate h env self "" fs = Raise FileNotFoundError fs.
Proof.
  intros Hpkg Hname.
  assert (ModuleStubGenerator.root_folder h self "" = "") as Hroot.
  { unfold ModuleStubGenerator.root_folder, ModuleStubGenerator.output_file,
      ModuleStubGenerator.package, os_path.join.
    rewrite Hpkg. cbn [PyStr.str from_option id PyStr.split app fold_left].
    change (os_path.join_step "" "") with "".
    set (file := ModuleStubGenerator.module_name h self +:+ ".pyi").
    assert (PyStr.has_char PyStr.sep file = false) as Hfile.
    { unfold file. rewrite has_char_append. cbn.
      unfold ModuleStubGenerator.module_name.
      by rewrite has_char_removeprefix. }
    unfold os_path.join_step. rewrite (startswith_free _ Hfile). cbn.
    change ("" +:+ file) with file.
    unfold os_path.dirname. by rewrite (upto_last_free _ _ Hfile). }
  split; [done|].
  unfold ModuleStubGenerator.generate. rewrite Hroot. done.
Qed.






(** X14. [main] discards the previous stubs.  When [stubbytest] imports and
    [<directory of the script>/dist/stubs] is a directory, then however
    [main] ends, nothing of the directory's old content is left: at and
    below it there are only directories and stubs of imported modules. *)
Theorem main_discards_the_previous_stubs
    (h : heap) (env : Env) (fuel : nat) (__file__ : string) (fs : FS)
    (stubbytest : nat) :
  import_module env "stubbytest" = inr stubbytest →
  lookup_node fs ("stubs" :: "dist" :: resolve env (os_path.dirname __file__))
  = Some Dir →
  ends_in (main h env fuel __file__ fs)
    (λ fs', ∀ p,
       "stubs" :: "dist" :: resolve env (os_path.dirname __file__)
         `suffix_of` p →
       lookup_node fs' p = None
       ∨ lookup_node fs' p = Some Dir
       ∨ ∃ l, importable env l
              ∧ p = resolve env
                      (ModuleStubGenerator.output_file h
                         (ModuleStubGenerator.__init__ h l)
                         (os_path.join (os_path.dirname __file__)
                            ["dist"; "stubs"]))
              ∧ lookup_node fs' p
                = Some (File (stub_text h
                                (ModuleStubGenerator.__init__ h l)).1)).
Proof.
  intros Himport Hdir. unfold main. rewrite Himport. cbn [lift].
  unfold bind at 1, ret.
  destruct (main_output_folder env (os_path.dirname __file__))
    as [Hout Hresolve].
  set (out := os_path.join (os_path.dirname __file__) ["dist"; "stubs"]) in *.
  rewrite <- Hresolve in *. unfold StubGenerator.generate.
  rewrite (bind_Ok _ _ _ true fs).
  2: { apply path_exists_true. destruct (String.eqb_spec out ""); [done|].
       apply bool_decide_eq_true_2. by rewrite Hdir. }
  destruct (os.rmtree env out fs) as [[] fs0|e fs0|] eqn:Hflush.
  - rewrite (bind_Ok _ _ _ _ _ Hflush).
    apply rmtree_Ok_inv in Hflush as (_ & _ & _ & Hgone & _).
    by apply walk_on_flushed.
  - exfalso. unfold os.rmtree in Hflush.
    destruct (String.eqb_spec out ""); [done|].
    rewrite Hresolve in *. cbn in Hdir. by rewrite Hdir in Hflush.
  - exfalso. unfold os.rmtree in Hflush.
    destruct (String.eqb_spec out ""); [done|].
    rewrite Hresolve in *. cbn in Hdir. by rewrite Hdir in Hflush.
Qed.












Section progress.
Context (h : heap) (env : Env) (output_folder : string).

Local Abbreviation O := (resolve env output_folder).



End progress.



(** ** The properties above, on the demo packages *)




Lemma flushed_output_stays_gone_when_the_run_fails_witness :
  os.path_exists Demo.env_broken Demo.out Demo.fs = Ok true Demo.fs
  ∧ os.rmtree Demo.env_broken Demo.out Demo.fs
    = Ok tt (final_fs Demo.fs (os.rmtree Demo.env_broken Demo.out))
  ∧ completes (StubGenerator.generate Demo.h Demo.env_broken 3 Demo.walker
                 Demo.out true Demo.fs) = false
  ∧ ends_in (StubGenerator.generate Demo.h Demo.env_broken 3 Demo.walker
               Demo.out true Demo.fs)
      (λ fs', ∀ p,
         resolve Demo.env_broken Demo.out `suffix_of` p →
         lookup_node fs' p = None
         ∨ lookup_node fs' p = Some Dir
         ∨ ∃ l, importable Demo.env_broken l
                ∧ p = resolve Demo.env_broken
                        (ModuleStubGenerator.output_file Demo.h
                           (ModuleStubGenerator.__init__ Demo.h l) Demo.out)
                ∧ lookup_node fs' p
                  = Some (File (stub_text Demo.h
                                  (ModuleStubGenerator.__init__ Demo.h l)).1)).
Proof.
  assert (os.path_exists Demo.env_broken Demo.out Demo.fs = Ok true Demo.fs)
    as Hthere by (apply path_exists_true; vm_compute; reflexivity).
  assert (os.rmtree Demo.env_broken Demo.out Demo.fs
          = Ok tt (final_fs Demo.fs (os.rmtree Demo.env_broken Demo.out)))
    as Hflush by (apply completes_final_fs; vm_compute; reflexivity).
  split_and!; [done|done|vm_compute; reflexivity|].
  exact (flushed_output_stays_gone_when_the_run_fails Demo.h Demo.env_broken 3
           Demo.walker Demo.out Demo.fs _ Hthere Hflush).
Defined.

Lemma generate_again_changes_nothing_witness :
  ModuleStubGenerator.generate Demo.h Demo.env Demo.generator Demo.out
    Demo.fs_bare = Ok tt Demo.first_call
  ∧ ModuleStubGenerator.generate Demo.h Demo.env Demo.generator Demo.out
      Demo.first_call = Ok tt Demo.first_call.
Proof.
  assert (ModuleStubGenerator.generate Demo.h Demo.env Demo.generator Demo.out
            Demo.fs_bare = Ok tt Demo.first_call) as Hrun
    by (apply completes_final_fs; vm_compute; reflexivity).
  split; [done|].
  exact (generate_again_changes_nothing Demo.h Demo.env Demo.generator Demo.out
           Demo.fs_bare Demo.first_call Hrun).
Defined.

Lemma stub_holds_the_text_of_its_last_writer_witness :
  StubGenerator._generate_stubs Demo.h Demo.env 3 0 Demo.out None Demo.fs_bare
  = Ok tt (final_fs Demo.fs_bare
             (StubGenerator._generate_stubs Demo.h Demo.env 3 0 Demo.out None))
  ∧ leaf_modules Demo.h Demo.env 3 0 None = Some ([] ++ 1 :: [3])
  ∧ lookup_node
      (final_fs Demo.fs_bare
         (StubGenerator._generate_stubs Demo.h Demo.env 3 0 Demo.out None))
      (resolve Demo.env
         (ModuleStubGenerator.output_file Demo.h
            (ModuleStubGenerator.__init__ Demo.h 1) Demo.out))
    = Some (File (stub_text Demo.h (ModuleStubGenerator.__init__ Demo.h 1)).1)
  ∧ (stub_text Demo.h (ModuleStubGenerator.__init__ Demo.h 1)).2 = None.
Proof.
  assert (StubGenerator._generate_stubs Demo.h Demo.env 3 0 Demo.out None
            Demo.fs_bare
          = Ok tt (final_fs Demo.fs_bare
                     (StubGenerator._generate_stubs Demo.h Demo.env 3 0
                        Demo.out None))) as Hrun
    by (apply completes_final_fs; vm_compute; reflexivity).
  assert (leaf_modules Demo.h Demo.env 3 0 None = Some ([] ++ 1 :: [3]))
    as Hls by (vm_compute; reflexivity).
  assert (∀ l', l' ∈ [3] →
            resolve Demo.env
              (ModuleStubGenerator.output_file Demo.h
                 (ModuleStubGenerator.__init__ Demo.h l') Demo.out)
            ≠ resolve Demo.env
                (ModuleStubGenerator.output_file Demo.h
                   (ModuleStubGenerator.__init__ Demo.h 1) Demo.out))
    as Hlater.
  { intros l' ->%list_elem_of_singleton Heq. vm_compute in Heq. discriminate. }
  split_and!; [done|done|..];
    by apply (stub_holds_the_text_of_its_last_writer Demo.h Demo.env 3 0
                Demo.out None Demo.fs_bare _ [] [3] 1 Hrun Hls Hlater).
Defined.

Lemma stub_of_a_module_without_public_members_witness :
  Forall (λ nm, PyStr.startswith nm.1 "__" = true)
    (ModuleStubGenerator._members Stubbytest.private_only)
  ∧ ModuleStubGenerator.generate Stubbytest.h Stubbytest.env
      Stubbytest.private_only "out" Stubbytest.fs
    = Ok tt (final_fs Stubbytest.fs
               (ModuleStubGenerator.generate Stubbytest.h Stubbytest.env
                  Stubbytest.private_only "out"))
  ∧ stub_text Stubbytest.h Stubbytest.private_only
    = (ModuleStubGenerator.header Stubbytest.h Stubbytest.private_only, None)
  ∧ final_fs Stubbytest.fs
      (ModuleStubGenerator.generate Stubbytest.h Stubbytest.env
         Stubbytest.private_only "out")
    !! ["alpha.pyi"; "stubbytest"; "out"; "repo"]
    = Some (File ("# Auto generatded stub from stubby.py stubbytest.alpha"
                  +:+ PyStr.nl +:+ PyStr.nl)).
Proof.
  assert (Forall (λ nm, PyStr.startswith nm.1 "__" = true)
            (ModuleStubGenerator._members Stubbytest.private_only)) as Hall
    by (repeat constructor).
  assert (ModuleStubGenerator.generate Stubbytest.h Stubbytest.env
            Stubbytest.private_only "out" Stubbytest.fs
          = Ok tt (final_fs Stubbytest.fs
                     (ModuleStubGenerator.generate Stubbytest.h Stubbytest.env
                        Stubbytest.private_only "out"))) as Hrun
    by (apply completes_final_fs; vm_compute; reflexivity).
  destruct (stub_of_a_module_without_public_members Stubbytest.h
              Stubbytest.env Stubbytest.private_only "out" Stubbytest.fs
              (final_fs Stubbytest.fs
                 (ModuleStubGenerator.generate Stubbytest.h Stubbytest.env
                    Stubbytest.private_only "out"))
              Hall) as [Htext Hfile].
  split_and!; [done|done|done|]. exact (Hfile Hrun).
Defined.

Lemma flush_for_an_empty_package_leaves_no_output_witness :
  __path__ (Stubbytest.h 2) = Some ["/repo/hollow"]
  ∧ scan Stubbytest.env ["/repo/hollow"] = []
  ∧ os.path_exists Stubbytest.env "dist/stubs" Stubbytest.fs
    = Ok true Stubbytest.fs
  ∧ os.rmtree Stubbytest.env "dist/stubs" Stubbytest.fs
    = Ok tt (final_fs Stubbytest.fs (os.rmtree Stubbytest.env "dist/stubs"))
  ∧ StubGenerator.generate Stubbytest.h Stubbytest.env 1 (StubGenerator.mk 2)
      "dist/stubs" true Stubbytest.fs
    = Ok tt (final_fs Stubbytest.fs (os.rmtree Stubbytest.env "dist/stubs"))
  ∧ os.path_exists Stubbytest.env "dist/stubs"
      (final_fs Stubbytest.fs (os.rmtree Stubbytest.env "dist/stubs"))
    = Ok false (final_fs Stubbytest.fs (os.rmtree Stubbytest.env "dist/stubs")).
Proof.
  assert (os.path_exists Stubbytest.env "dist/stubs" Stubbytest.fs
          = Ok true Stubbytest.fs) as Hthere
    by (apply path_exists_true; vm_compute; reflexivity).
  assert (os.rmtree Stubbytest.env "dist/stubs" Stubbytest.fs
          = Ok tt (final_fs Stubbytest.fs
                     (os.rmtree Stubbytest.env "dist/stubs"))) as Hflush
    by (apply completes_final_fs; vm_compute; reflexivity).
  split_and!; [done..| |];
    by apply (flush_for_an_empty_package_leaves_no_output Stubbytest.h
                Stubbytest.env 0 (StubGenerator.mk 2) "dist/stubs"
                ["/repo/hollow"] Stubbytest.fs _ eq_refl eq_refl Hthere Hflush).
Defined.


Lemma stub_location_follows_the_dotted_package_witness :
  PyStr.has_char PyStr.sep
    (ModuleStubGenerator.package Demo.h (ModuleStubGenerator.__init__ Demo.h 3))
  = false
  ∧ PyStr.has_char PyStr.sep (__name__ (Demo.h 3)) = false
  ∧ resolve Demo.env
      (ModuleStubGenerator.output_file Demo.h
         (ModuleStubGenerator.__init__ Demo.h 3) Demo.out)
    = ["reader.pyi"; "io"; "shapes"; "stubs"; "dist"; "work"]
  ∧ resolve Demo.env
      (ModuleStubGenerator.root_folder Demo.h
         (ModuleStubGenerator.__init__ Demo.h 3) Demo.out)
    = ["io"; "shapes"; "stubs"; "dist"; "work"].
Proof.
  assert (PyStr.has_char PyStr.sep
            (ModuleStubGenerator.package Demo.h
               (ModuleStubGenerator.__init__ Demo.h 3)) = false) as Hpkg
    by (vm_compute; reflexivity).
  assert (PyStr.has_char PyStr.sep
            (__name__ (Demo.h (ModuleStubGenerator._obj
                                 (ModuleStubGenerator.__init__ Demo.h 3))))
          = false) as Hname by (vm_compute; reflexivity).
  destruct (stub_location_follows_the_dotted_package Demo.h Demo.env
              (ModuleStubGenerator.__init__ Demo.h 3) Demo.out Hpkg Hname)
    as [Hfile Hfolder].
  split_and!; [done|done| |].
  - rewrite Hfile. vm_compute. reflexivity.
  - rewrite Hfolder. vm_compute. reflexivity.
Defined.

Lemma module_name_with_leading_separator_ignores_the_output_folder_witness :
  PyStr.startswith
    (ModuleStubGenerator.module_name Stubbytest.h
       (ModuleStubGenerator.__init__ Stubbytest.h 4)) "/" = true
  ∧ ModuleStubGenerator.output_file Stubbytest.h
      (ModuleStubGenerator.__init__ Stubbytest.h 4) "dist/stubs"
    = "/srv/rooted.pyi".
Proof.
  assert (PyStr.startswith
            (ModuleStubGenerator.module_name Stubbytest.h
               (ModuleStubGenerator.__init__ Stubbytest.h 4)) "/" = true)
    as Habs by (vm_compute; reflexivity).
  split; [done|].
  rewrite (module_name_with_leading_separator_ignores_the_output_folder
             Stubbytest.h (ModuleStubGenerator.__init__ Stubbytest.h 4)
             "dist/stubs" Habs).
  vm_compute. reflexivity.
Defined.

Lemma generate_into_the_empty_folder_name_raises_witness :
  __package__ (Stubbytest.h 3) = Some ""
  ∧ PyStr.has_char PyStr.sep (__name__ (Stubbytest.h 3)) = false
  ∧ ModuleStubGenerator.root_folder Stubbytest.h
      (ModuleStubGenerator.__init__ Stubbytest.h 3) "" = ""
  ∧ ModuleStubGenerator.generate Stubbytest.h Stubbytest.env
      (ModuleStubGenerator.__init__ Stubbytest.h 3) "" Stubbytest.fs
    = Raise FileNotFoundError Stubbytest.fs.
Proof.
  split_and!; [done|done|..];
    by apply (generate_into_the_empty_folder_name_raises Stubbytest.h
                Stubbytest.env (ModuleStubGenerator.__init__ Stubbytest.h 3)
                Stubbytest.fs eq_refl eq_refl).
Defined.




Lemma main_discards_the_previous_stubs_witness :
  import_module Stubbytest.env "stubbytest" = inr 0
  ∧ lookup_node Stubbytest.fs
      ("stubs" :: "dist"
         :: resolve Stubbytest.env (os_path.dirname Stubbytest.__file__))
    = Some Dir
  ∧ lookup_node Stubbytest.fs ["beta.pyi"; "stubs"; "dist"; "repo"]
    = Some (File "# stale")
  ∧ completes (main Stubbytest.h Stubbytest.env 2 Stubbytest.__file__
                 Stubbytest.fs) = true
  ∧ ends_in (main Stubbytest.h Stubbytest.env 2 Stubbytest.__file__
               Stubbytest.fs)
      (λ fs', ∀ p,
         "stubs" :: "dist"
           :: resolve Stubbytest.env (os_path.dirname Stubbytest.__file__)
           `suffix_of` p →
         lookup_node fs' p = None
         ∨ lookup_node fs' p = Some Dir
         ∨ ∃ l, importable Stubbytest.env l
                ∧ p = resolve Stubbytest.env
                        (ModuleStubGenerator.output_file Stubbytest.h
                           (ModuleStubGenerator.__init__ Stubbytest.h l)
                           (os_path.join (os_path.dirname Stubbytest.__file__)
                              ["dist"; "stubs"]))
                ∧ lookup_node fs' p
                  = Some (File (stub_text Stubbytest.h
                                  (ModuleStubGenerator.__init__ Stubbytest.h
                                     l)).1)).
Proof.
  assert (lookup_node Stubbytest.fs
            ("stubs" :: "dist"
               :: resolve Stubbytest.env (os_path.dirname Stubbytest.__file__))
          = Some Dir) as Hdir by (vm_compute; reflexivity).
  split_and!; [done|done|vm_compute; reflexivity..|].
  exact (main_discards_the_previous_stubs Stubbytest.h Stubbytest.env 2
           Stubbytest.__file__ Stubbytest.fs 0 eq_refl Hdir).
Defined.




